(** * Springs & Pucks relay server: session registry, room directory, idle timers

    A shallow embedding of the socket.io server and the properties of its
    identity registry, room directory and idle-lifecycle timers.  The server
    embedded is the revision of July 22, 2025 (nickname and team maps, idle
    timers); the registry and room handlers of the revision of January 10,
    2021 are embedded next to it, in [Rev2021].

    Modelling conventions.
    - The global [cD] of the server is the record [cData]; every JavaScript
      object used as a map is a [gmap] keyed by strings.  A key that is
      present with the value [null] or [undefined] is a present key, as it
      is for [Object.keys] and [for ... in].
    - The values that reach the server in handshake fields and message fields
      are [undefined], [null] or a string ([jsval]); opaque relayed payloads
      are kept as their wire text.  Property names inherited from
      [Object.prototype] are outside the model.
    - [cD.nameIndex] and [cD.connectionIndex] are natural numbers (exact for
      JavaScript numbers below 2^53); idle times are whole minutes, as all
      the times the server computes are.
    - A handler is a computation in the monad [M]: it threads the server
      state, appends to the log of emitted transport actions, and may abort
      with a [TypeError], keeping the mutations done so far.
    - The listeners of [connection], [roomJoin], [disconnect],
      [okDisconnectMe], the two echo events, [signaling message],
      [client-mK-event] and [command-from-host-to-all-clients], and the two
      timer callbacks, are computations in [M].  The listeners that
      enumerate the maps or send without the sender ([chat message], [chat
      message but not me], [control message], [name report],
      [clientDisconnectByHost], [shutDown-p2p-deleteClient]) and the reports
      ([countValidNames], [connectionInfo], [roomReport], [nameReport])
      follow; the order in which [for ... in] visits the keys, and the
      number of engine clients, are arguments.
    - Left out: [highestNameNumber] and [disconnectClientsInAllRooms]
      (neither is called), the broadcast five seconds after the start, the
      HTTP and TLS set-up, and the console output. *)

From stdpp Require Import base strings gmap fin_maps pretty list.
From Stdlib Require Import ZArith Lia.

Open Scope string_scope.

(** ** JavaScript values and coercions *)

Inductive jsval : Type :=
  | JUndefined
  | JNull
  | JStr (s : string).

#[global] Instance jsval_eq_dec : EqDecision jsval.
Proof. solve_decision. Defined.

(** [ToString], used both for property keys and for [+] on strings. *)
Definition ToString (v : jsval) : string :=
  match v with
  | JUndefined => "undefined"
  | JNull => "null"
  | JStr s => s
  end.

(** Truthiness, as tested by [if (v)] and [v && ...]. *)
Definition truthy (v : jsval) : bool :=
  match v with
  | JStr s => negb (String.eqb s "")
  | _ => false
  end.

(** The loose equality [a == b] on these values. *)
Definition loose_eq (a b : jsval) : bool :=
  match a, b with
  | JStr s, JStr t => String.eqb s t
  | JStr _, _ | _, JStr _ => false
  | _, _ => true
  end.

(** [obj[k]] for a map whose stored values are [jsval]s. *)
Definition getv (m : gmap string jsval) (k : jsval) : jsval :=
  default JUndefined (m !! ToString k).

(** [obj[k]] for a map whose stored values are socket ids. *)
Definition gets (m : gmap string string) (k : jsval) : jsval :=
  from_option JStr JUndefined (m !! ToString k).

(** [setDefault(theValue, theDefault)]. *)
Definition setDefault (theValue theDefault : jsval) : jsval :=
  match theValue with
  | JUndefined => theDefault
  | _ => theValue
  end.

(** [s.slice(1)] on a string. *)
Definition slice1 (s : string) : string :=
  match s with
  | EmptyString => EmptyString
  | String _ r => r
  end.

(** ** Server state *)

(** The global [cD]. The field [ids] is [cD.id] (name to socket id). *)
Record cData : Type := mkData {
  connectionIndex : N;
  nameIndex : N;
  userName : gmap string jsval;
  nickName : gmap string jsval;
  teamName : gmap string jsval;
  ids : gmap string string;
  room : gmap string jsval;
  hostID : gmap string string
}.

(** The closure variables of one socket: the two timer handles (a pending
    timer remembers the [t_min] it was armed with) and [idleTime_m]. *)
Record sockTimers : Type := mkTimers {
  logoffTimer : option Z;
  warningTimer : option Z;
  idleTime_m : Z
}.

Record server : Type := mkServer {
  cD : cData;
  timers : gmap string sockTimers
}.

Definition cD0 : cData := mkData 0 0 ∅ ∅ ∅ ∅ ∅ ∅.
Definition server0 : server := mkServer cD0 ∅.

Definition with_cD (f : cData → cData) (s : server) : server :=
  mkServer (f (cD s)) (timers s).
Definition with_timers (f : gmap string sockTimers → gmap string sockTimers)
    (s : server) : server :=
  mkServer (cD s) (f (timers s)).

Definition set_connectionIndex (f : N → N) (d : cData) : cData :=
  mkData (f (connectionIndex d)) (nameIndex d) (userName d) (nickName d)
         (teamName d) (ids d) (room d) (hostID d).
Definition set_nameIndex (f : N → N) (d : cData) : cData :=
  mkData (connectionIndex d) (f (nameIndex d)) (userName d) (nickName d)
         (teamName d) (ids d) (room d) (hostID d).
Definition set_userName (f : gmap string jsval → gmap string jsval) (d : cData) : cData :=
  mkData (connectionIndex d) (nameIndex d) (f (userName d)) (nickName d)
         (teamName d) (ids d) (room d) (hostID d).
Definition set_nickName (f : gmap string jsval → gmap string jsval) (d : cData) : cData :=
  mkData (connectionIndex d) (nameIndex d) (userName d) (f (nickName d))
         (teamName d) (ids d) (room d) (hostID d).
Definition set_teamName (f : gmap string jsval → gmap string jsval) (d : cData) : cData :=
  mkData (connectionIndex d) (nameIndex d) (userName d) (nickName d)
         (f (teamName d)) (ids d) (room d) (hostID d).
Definition set_ids (f : gmap string string → gmap string string) (d : cData) : cData :=
  mkData (connectionIndex d) (nameIndex d) (userName d) (nickName d)
         (teamName d) (f (ids d)) (room d) (hostID d).
Definition set_room (f : gmap string jsval → gmap string jsval) (d : cData) : cData :=
  mkData (connectionIndex d) (nameIndex d) (userName d) (nickName d)
         (teamName d) (ids d) (f (room d)) (hostID d).
Definition set_hostID (f : gmap string string → gmap string string) (d : cData) : cData :=
  mkData (connectionIndex d) (nameIndex d) (userName d) (nickName d)
         (teamName d) (ids d) (room d) (f (hostID d)).

(** ** Transport actions *)

(** The text of an opaque relayed payload. *)
Definition wire : Type := string.

(** A [signaling message] payload that is an object: only [to] is read. *)
Record sigmsg : Type := mkSig { sig_to : jsval; sig_body : wire }.

Inductive edata : Type :=
  | DStr (s : string)
  | DVal (v : jsval)
  | DWire (w : wire)
  | DName (name : jsval)
  | DRoomJoining (message : string) (user : jsval) (nick : option jsval)
  | DNewGameClient (clientName : jsval) (requestStream player : wire)
                   (nick team : jsval)
  | DDisconnectByServer (name : jsval) (originator : string)
  | DSignal (msg : sigmsg)
  | DJsonName (name nick : jsval)
      (* JSON.stringify({'name':..., 'nickName':...}) *)
  | DJsonNewGameClient (clientName : jsval) (requestStream player : wire)
                       (nick : jsval).
      (* JSON.stringify({'clientName':..., 'requestStream':..., ...}) *)

Inductive action : Type :=
  | EmitTo (target : jsval) (event : string) (data : edata)
      (* io.to(target).emit(event, data) *)
  | SocketEmit (sock : string) (event : string) (data : edata)
      (* socket.emit(event, data) *)
  | SocketJoin (sock : string) (roomName : jsval)
      (* socket.join(roomName) *)
  | SocketDisconnect (sock : string).
      (* socket.disconnect() *)

(** ** The handler monad *)

Inductive outcome (A : Type) : Type :=
  | Val (a : A)
  | TypeError
  | OutOfFuel.
Arguments Val {A} a.
Arguments TypeError {A}.
Arguments OutOfFuel {A}.

Record res (A : Type) : Type := mkRes {
  result : outcome A;
  final : server;
  log : list action
}.
Arguments mkRes {A} _ _ _.
Arguments result {A} _.
Arguments final {A} _.
Arguments log {A} _.

Definition M (A : Type) : Type := server → res A.

#[global] Instance M_ret : MRet M := λ A a s, mkRes (Val a) s [].
#[global] Instance M_bind : MBind M := λ A B f m s,
  match m s with
  | mkRes (Val a) s' l =>
      match f a s' with
      | mkRes r s'' l' => mkRes r s'' (l ++ l')
      end
  | mkRes TypeError s' l => mkRes TypeError s' l
  | mkRes OutOfFuel s' l => mkRes OutOfFuel s' l
  end.

Definition get : M cData := λ s, mkRes (Val (cD s)) s [].
Definition getTimers (sock : string) : M (option sockTimers) :=
  λ s, mkRes (Val (timers s !! sock)) s [].
Definition modify (f : cData → cData) : M unit :=
  λ s, mkRes (Val tt) (with_cD f s) [].
Definition modifyTimers (f : gmap string sockTimers → gmap string sockTimers) : M unit :=
  λ s, mkRes (Val tt) (with_timers f s) [].
Definition emit (a : action) : M unit := λ s, mkRes (Val tt) s [a].
Definition throwTypeError {A} : M A := λ s, mkRes TypeError s [].
Definition outOfFuel {A} : M A := λ s, mkRes OutOfFuel s [].
Definition when (b : bool) (m : M unit) : M unit := if b then m else mret tt.

(** ** Miscellaneous support functions *)

(** [removeUserFromMaps(clientID)]. *)
Definition removeUserFromMaps (clientID : string) : M unit :=
  d ← get;
  let host := gets (hostID d) (getv (room d) (JStr clientID)) in
  when (loose_eq host (JStr clientID))
    (d ← get;
     modify (set_hostID (delete (ToString (getv (room d) (JStr clientID))))));;
  d ← get;
  modify (set_ids (delete (ToString (getv (userName d) (JStr clientID)))));;
  modify (set_userName (delete clientID));;
  d ← get;
  when (truthy (getv (nickName d) (JStr clientID)))
    (modify (set_nickName (delete clientID)));;
  d ← get;
  when (truthy (getv (teamName d) (JStr clientID)))
    (modify (set_teamName (delete clientID)));;
  modify (set_room (delete clientID)).

(** [setDisplayName(clientID, mode)]: a pure read of the maps. *)
Definition setDisplayName (d : cData) (clientID : string) (mode : string) : jsval :=
  let host := gets (hostID d) (getv (room d) (JStr clientID)) in
  let user := if loose_eq host (JStr clientID) then JStr "host"
              else getv (userName d) (JStr clientID) in
  if truthy (getv (nickName d) (JStr clientID)) then
    let teamString :=
      if truthy (getv (teamName d) (JStr clientID))
      then "." +:+ ToString (getv (teamName d) (JStr clientID)) else "" in
    if String.eqb mode "comma" then
      JStr (ToString (getv (nickName d) (JStr clientID)) +:+ teamString
            +:+ ", " +:+ ToString user)
    else if String.eqb mode "prens" then
      JStr (ToString (getv (nickName d) (JStr clientID)) +:+ teamString
            +:+ " (" +:+ ToString user +:+ ")")
    else JUndefined
  else user.

(** [nameInUse(nameToCheck, nameMap)]: the [for ... in] over the entries;
    the answer does not depend on the order in which they are visited. *)
Definition nameInUse (nameToCheck : jsval) (nameMap : gmap string jsval) : bool :=
  existsb (λ kv : string * jsval, loose_eq kv.2 nameToCheck) (map_to_list nameMap).

(** ['u' + n], a minted user name. *)
Definition uname (n : N) : string := "u" +:+ pretty n.

(** The [do ... while] of the connection handler: bump [cD.nameIndex] and
    try ['u' + cD.nameIndex] until the name is not in use.  The loop is
    unbounded in the source; [fuel] bounds the number of iterations. *)
Fixpoint nameLoop (fuel : nat) : M jsval :=
  match fuel with
  | O => outOfFuel
  | S fuel' =>
      modify (set_nameIndex (λ n, n + 1)%N);;
      d ← get;
      let user_name := JStr (uname (nameIndex d)) in
      if nameInUse user_name (userName d) then nameLoop fuel'
      else mret user_name
  end.

(** The handshake hints, [socket.handshake.auth]. *)
Module Auth.
Record t : Type := mk {
  mode : jsval;
  currentName : jsval;
  nickName : jsval;
  teamName : jsval
}.
End Auth.

(** The payload of [roomJoin] when it is an object. *)
Module RoomJoin.
Record t : Type := mk {
  roomName : jsval;
  requestStream : option wire;
  player : option wire;
  hostOrClient : jsval
}.
End RoomJoin.

(** ** Idle timers *)

Definition timers0 : sockTimers := mkTimers None None 0.
Definition timersOf (s : server) (sock : string) : sockTimers :=
  default timers0 (timers s !! sock).
Definition updTimers (sock : string) (f : sockTimers → sockTimers) : M unit :=
  modifyTimers (λ m, <[sock := f (default timers0 (m !! sock))]> m).

Definition set_idleTime (v : Z) (t : sockTimers) : sockTimers :=
  mkTimers (logoffTimer t) (warningTimer t) v.
Definition set_warning (w : option Z) (t : sockTimers) : sockTimers :=
  mkTimers (logoffTimer t) w (idleTime_m t).
Definition set_logoff (l : option Z) (t : sockTimers) : sockTimers :=
  mkTimers l (warningTimer t) (idleTime_m t).

(** [setTimer(reset, t_min)] of the socket [sock]; the default [t_min] is 40. *)
Definition setTimer (sock : string) (reset : string) (t_min : Z) : M unit :=
  (if String.eqb reset "initialize" then
     updTimers sock (set_idleTime t_min)
   else if String.eqb reset "restart" then
     updTimers sock (set_warning None);;
     updTimers sock (set_logoff None);;
     updTimers sock (set_idleTime t_min)
   else if String.eqb reset "extend" then
     updTimers sock (set_warning None);;
     updTimers sock (set_logoff None)
   else mret tt);;
  when (negb (String.eqb reset "extend"))
    (updTimers sock (set_warning (Some t_min)));;
  updTimers sock (set_logoff (Some t_min)).

(** [x.toFixed(1)] for a whole number of minutes and for half of one. *)
Definition toFixed1 (x : Z) : string := pretty x +:+ ".0".
Definition halfToFixed1 (x : Z) : string :=
  pretty (x `div` 2)%Z +:+ (if (x `mod` 2 =? 0)%Z then ".0" else ".5").

Definition advice : string :=
  "</br></br>Click <strong>Chat</strong> before disconnection for 40 minutes of network time." +:+
  "</br></br>To <strong>reconnect:</strong> hosts click <strong>Create</strong>, clients click <strong>Connect</strong>.".

(** The callback armed on [warningTimer]. *)
Definition warningCallback (sock : string) (t_min : Z) : M unit :=
  emit (SocketEmit sock "chat message"
    (DStr ("Idle socket will disconnect in " +:+ halfToFixed1 t_min +:+ " minutes." +:+
           "</br></br>Click <strong>Chat</strong> to reset the disconnect timer to " +:+
           toFixed1 t_min +:+ " minutes."))).

(** The callback armed on [logoffTimer]. *)
Definition logoffCallback (sock : string) : M unit :=
  t ← getTimers sock;
  let disconnectNotice :=
    "Idle for " +:+ toFixed1 (idleTime_m (default timers0 t)) +:+
    " minutes. Network socket disconnected." in
  d ← get;
  if loose_eq (JStr sock) (gets (hostID d) (getv (room d) (JStr sock))) then
    let n_users := size (userName d) in
    if (n_users =? 1)%nat || (180 <=? idleTime_m (default timers0 t))%Z then
      emit (SocketEmit sock "chat message" (DStr (disconnectNotice +:+ advice)));;
      removeUserFromMaps sock;;
      emit (SocketDisconnect sock)
    else
      let extraTime_m := 5%Z in
      updTimers sock (λ t, set_idleTime (idleTime_m t + extraTime_m) t);;
      setTimer sock "extend" extraTime_m
  else
    emit (SocketEmit sock "chat message" (DStr disconnectNotice));;
    d ← get;
    emit (EmitTo (JStr sock) "disconnectByServer"
            (DDisconnectByServer (getv (userName d) (JStr sock)) "server")).

(** A pending timer fires: its handle is spent and its callback runs.  A
    timer that is not pending does not fire. *)
Definition warningAlarm (sock : string) : M unit :=
  t ← getTimers sock;
  match warningTimer (default timers0 t) with
  | Some t_min => updTimers sock (set_warning None);; warningCallback sock t_min
  | None => mret tt
  end.

Definition logoffAlarm (sock : string) : M unit :=
  t ← getTimers sock;
  match logoffTimer (default timers0 t) with
  | Some _ => updTimers sock (set_logoff None);; logoffCallback sock
  | None => mret tt
  end.

(** ** The connection handler and the listeners it installs *)

(** [io.on('connection', ...)] up to the installation of the listeners,
    followed by [setTimer("initialize")]. *)
Definition connection (sock : string) (auth : Auth.t) : M unit :=
  modify (set_connectionIndex (λ n, n + 1)%N);;
  user_name ←
    (if loose_eq (Auth.mode auth) (JStr "normal") then
       d ← get; nameLoop (S (size (userName d)))
     else if loose_eq (Auth.mode auth) (JStr "re-connect") then
       mret (Auth.currentName auth)
     else mret JUndefined);
  let nick_name := setDefault (Auth.nickName auth) JNull in
  d ← get;
  nick_name ←
    (if truthy nick_name && nameInUse nick_name (nickName d) then
       match user_name with
       | JStr u => mret (JStr (ToString nick_name +:+ slice1 u))
       | _ => throwTypeError
       end
     else mret nick_name);
  let team_name := setDefault (Auth.teamName auth) JNull in
  modify (set_userName (<[sock := user_name]>));;
  modify (set_nickName (<[sock := nick_name]>));;
  modify (set_teamName (<[sock := team_name]>));;
  modify (set_ids (<[ToString user_name := sock]>));;
  d ← get;
  when (negb (loose_eq (JStr sock) (gets (hostID d) (getv (room d) (JStr sock)))))
    (emit (EmitTo (JStr sock) "your name is" (DName (getv (userName d) (JStr sock)))));;
  setTimer sock "initialize" 40.

(** [socket.on('echo-from-Client-to-Server', ...)]. *)
Definition echoFromClient (sock : string) (msg : jsval) : M unit :=
  if loose_eq msg (JStr "server") then
    emit (EmitTo (JStr sock) "echo-from-Server-to-Client" (DStr "server"))
  else if loose_eq msg (JStr "host") then
    d ← get;
    emit (EmitTo (gets (hostID d) (getv (room d) (JStr sock)))
            "echo-from-Server-to-Host" (DStr sock))
  else mret tt.

(** [socket.on('echo-from-Host-to-Server', ...)]. *)
Definition echoFromHost (sock : string) (msg : jsval) : M unit :=
  let socket_id := msg in
  emit (EmitTo socket_id "echo-from-Server-to-Client" (DStr "host")).

(** [socket.on('signaling message', ...)]; [None] is a payload that is
    [null] or [undefined], on which reading [msg.to] throws. *)
Definition signalingMessage (sock : string) (msg : option sigmsg) : M unit :=
  match msg with
  | None => throwTypeError
  | Some m =>
      d ← get;
      let target :=
        if loose_eq (sig_to m) (JStr "host")
        then gets (hostID d) (getv (room d) (JStr sock))
        else gets (ids d) (sig_to m) in
      emit (EmitTo target "signaling message" (DSignal m))
  end.

(** [socket.on('client-mK-event', ...)]. *)
Definition clientMKEvent (sock : string) (msg : wire) : M unit :=
  d ← get;
  let host := gets (hostID d) (getv (room d) (JStr sock)) in
  emit (EmitTo host "client-mK-StH-event" (DWire msg)).

(** [socket.on('command-from-host-to-all-clients', ...)]. *)
Definition commandFromHost (sock : string) (msg : wire) : M unit :=
  d ← get;
  emit (EmitTo (getv (room d) (JStr sock)) "command-from-host-to-all-clients" (DWire msg)).

(** [socket.on('roomJoin', ...)]; [None] is a payload that is [null] or
    [undefined], on which reading [msg.roomName] throws. *)
Definition roomJoin (sock : string) (msg : option RoomJoin.t) : M unit :=
  match msg with
  | None => throwTypeError
  | Some m =>
      let roomName := setDefault (RoomJoin.roomName m) JNull in
      let requestStream := default "false" (RoomJoin.requestStream m) in
      let player := default "null" (RoomJoin.player m) in
      let hostOrClient := setDefault (RoomJoin.hostOrClient m) (JStr "client") in
      d ← get;
      let nick := getv (nickName d) (JStr sock) in
      let team := getv (teamName d) (JStr sock) in
      let displayName := setDisplayName d sock "prens" in
      if loose_eq hostOrClient (JStr "client") then
        d ← get;
        if truthy (gets (hostID d) roomName) then
          emit (SocketJoin sock roomName);;
          modify (set_room (<[sock := roomName]>));;
          d ← get;
          emit (EmitTo (JStr sock) "room-joining-message"
            (DRoomJoining
               ("You have joined room " +:+ ToString (getv (room d) (JStr sock)) +:+
                " and your client name is " +:+ ToString displayName +:+ ".")
               (getv (userName d) (JStr sock)) None));;
          emit (EmitTo (gets (hostID d) roomName) "new-game-client"
            (DNewGameClient (getv (userName d) (JStr sock)) requestStream player nick team));;
          emit (EmitTo (gets (hostID d) roomName) "chat message"
            (DStr (ToString displayName +:+ " is a new client in room " +:+
                   ToString roomName +:+ ".")))
        else
          emit (EmitTo (JStr sock) "room-joining-message"
            (DRoomJoining
               ("Sorry, there is no host yet for room " +:+ ToString roomName +:+ ".")
               (getv (userName d) (JStr sock)) None))
      else if loose_eq hostOrClient (JStr "host") then
        d ← get;
        if truthy (gets (hostID d) roomName) then
          emit (EmitTo (JStr sock) "room-joining-message"
            (DRoomJoining
               ("Sorry, there is already a host for room " +:+ ToString roomName +:+ ".")
               (getv (userName d) (JStr sock)) None))
        else
          emit (SocketJoin sock roomName);;
          modify (set_room (<[sock := roomName]>));;
          d ← get;
          emit (EmitTo (JStr sock) "room-joining-message"
            (DRoomJoining
               ("You have joined room " +:+ ToString (getv (room d) (JStr sock)) +:+
                " and your client name is " +:+ ToString displayName +:+ ".")
               (getv (userName d) (JStr sock)) (Some nick)));;
          modify (set_hostID (<[ToString (getv (room d) (JStr sock)) := sock]>));;
          d ← get;
          emit (EmitTo (JStr sock) "room-joining-message"
            (DRoomJoining
               ("You are the host of room " +:+ ToString (getv (room d) (JStr sock)) +:+ ".")
               (getv (userName d) (JStr sock)) None))
      else mret tt
  end.

(** [socket.on('disconnect', ...)]. *)
Definition disconnect (sock : string) : M unit :=
  d ← get;
  when (truthy (getv (userName d) (JStr sock)))
    (d ← get;
     let displayName := setDisplayName d sock "prens" in
     let message := ToString displayName +:+ " has disconnected." in
     d ← get;
     let host := gets (hostID d) (getv (room d) (JStr sock)) in
     emit (EmitTo host "chat message" (DStr (message +:+ ".")));;
     d ← get;
     emit (EmitTo host "client-disconnected" (DVal (getv (userName d) (JStr sock))));;
     removeUserFromMaps sock).

(** [socket.on('okDisconnectMe', ...)]. *)
Definition okDisconnectMe (sock : string) (msg : jsval) : M unit :=
  let clientName := msg in
  d ← get;
  let clientID := gets (ids d) clientName in
  let message := ToString clientName +:+ " has disconnected" in
  let host := gets (hostID d) (getv (room d) clientID) in
  emit (EmitTo host "chat message" (DStr message));;
  emit (EmitTo host "client-disconnected" (DVal clientName));;
  removeUserFromMaps sock;;
  emit (SocketDisconnect sock).

(** ** Events *)

(** What the transport and the timers deliver to the server, each on behalf
    of one socket. *)
Inductive event : Type :=
  | Connection (auth : Auth.t)
  | EchoFromClient (msg : jsval)
  | EchoFromHost (msg : jsval)
  | SignalingMessage (msg : option sigmsg)
  | ClientMKEvent (msg : wire)
  | CommandFromHost (msg : wire)
  | RoomJoinEv (msg : option RoomJoin.t)
  | Disconnect
  | OkDisconnectMe (msg : jsval)
  | WarningAlarm
  | LogoffAlarm.

Definition handle (sock : string) (e : event) : M unit :=
  match e with
  | Connection auth => connection sock auth
  | EchoFromClient msg => echoFromClient sock msg
  | EchoFromHost msg => echoFromHost sock msg
  | SignalingMessage msg => signalingMessage sock msg
  | ClientMKEvent msg => clientMKEvent sock msg
  | CommandFromHost msg => commandFromHost sock msg
  | RoomJoinEv msg => roomJoin sock msg
  | Disconnect => disconnect sock
  | OkDisconnectMe msg => okDisconnectMe sock msg
  | WarningAlarm => warningAlarm sock
  | LogoffAlarm => logoffAlarm sock
  end.

(** The server after a sequence of events, ignoring the log.  One event loop:
    each handler runs to completion before the next event. *)
Definition step (s : server) (se : string * event) : server :=
  final (handle se.1 se.2 s).
Definition run (s : server) (evs : list (string * event)) : server :=
  foldl step s evs.

Definition normalAuth (nick team : jsval) : Auth.t :=
  Auth.mk (JStr "normal") JUndefined nick team.
Definition reconnectAuth (name nick team : jsval) : Auth.t :=
  Auth.mk (JStr "re-connect") name nick team.
Definition joinMsg (r : string) (role : string) : option RoomJoin.t :=
  Some (RoomJoin.mk (JStr r) None None (JStr role)).

(** ** The revision of January 10, 2021 (version 2.5)

    The registry and room handlers of the older server: no team names, no
    timers, a nickname is stored only when one is given, and the payloads
    are JSON texts.  The name loop is the same text and [nameInUse] returns
    the same answer. *)
Module Rev2021.

Definition removeUserFromMaps (clientID : string) : M unit :=
  d ← get;
  let host := gets (hostID d) (getv (room d) (JStr clientID)) in
  when (loose_eq host (JStr clientID))
    (d ← get;
     modify (set_hostID (delete (ToString (getv (room d) (JStr clientID))))));;
  d ← get;
  modify (set_ids (delete (ToString (getv (userName d) (JStr clientID)))));;
  modify (set_userName (delete clientID));;
  d ← get;
  when (truthy (getv (nickName d) (JStr clientID)))
    (modify (set_nickName (delete clientID)));;
  modify (set_room (delete clientID)).

Definition setDisplayName (d : cData) (clientID : string) (mode : string) : jsval :=
  let host := gets (hostID d) (getv (room d) (JStr clientID)) in
  let user := if loose_eq host (JStr clientID) then JStr "host"
              else getv (userName d) (JStr clientID) in
  if truthy (getv (nickName d) (JStr clientID)) then
    if String.eqb mode "comma" then
      JStr (ToString (getv (nickName d) (JStr clientID)) +:+ ", " +:+ ToString user)
    else if String.eqb mode "prens" then
      JStr (ToString (getv (nickName d) (JStr clientID)) +:+ " (" +:+ ToString user +:+ ")")
    else JUndefined
  else user.

(** The hints come in [socket.handshake.query]; [Auth.teamName] is not read. *)
Definition connection (sock : string) (query : Auth.t) : M unit :=
  modify (set_connectionIndex (λ n, n + 1)%N);;
  user_name ←
    (if loose_eq (Auth.mode query) (JStr "normal") then
       d ← get; nameLoop (S (size (userName d)))
     else if loose_eq (Auth.mode query) (JStr "re-connect") then
       mret (Auth.currentName query)
     else mret JUndefined);
  let nick_name := Auth.nickName query in
  modify (set_userName (<[sock := user_name]>));;
  when (truthy nick_name) (modify (set_nickName (<[sock := nick_name]>)));;
  modify (set_ids (<[ToString user_name := sock]>));;
  d ← get;
  emit (EmitTo (JStr sock) "your name is"
          (DJsonName (getv (userName d) (JStr sock)) nick_name)).

(** [None] is a text that [JSON.parse] rejects or parses to [null]. *)
Definition roomJoin (sock : string) (msgParsed : option RoomJoin.t) : M unit :=
  match msgParsed with
  | None => throwTypeError
  | Some m =>
      let roomName := setDefault (RoomJoin.roomName m) JNull in
      let requestStream := default "false" (RoomJoin.requestStream m) in
      let player := default "null" (RoomJoin.player m) in
      let hostOrClient := setDefault (RoomJoin.hostOrClient m) (JStr "client") in
      d ← get;
      let nick := getv (nickName d) (JStr sock) in
      let displayName := setDisplayName d sock "prens" in
      if loose_eq hostOrClient (JStr "client") then
        d ← get;
        if truthy (gets (hostID d) roomName) then
          emit (SocketJoin sock roomName);;
          modify (set_room (<[sock := roomName]>));;
          d ← get;
          emit (EmitTo (JStr sock) "room-joining-message"
            (DStr ("You have joined room " +:+ ToString (getv (room d) (JStr sock)) +:+
                   " and your client name is " +:+ ToString displayName +:+ ".")));;
          emit (EmitTo (gets (hostID d) roomName) "new-game-client"
            (DJsonNewGameClient (getv (userName d) (JStr sock)) requestStream player nick));;
          emit (EmitTo (gets (hostID d) roomName) "chat message"
            (DStr (ToString displayName +:+ " is a new client in room " +:+
                   ToString roomName +:+ ".")))
        else
          emit (EmitTo (JStr sock) "room-joining-message"
            (DStr ("Sorry, there is no host yet for room " +:+ ToString roomName +:+ ".")))
      else if loose_eq hostOrClient (JStr "host") then
        d ← get;
        if truthy (gets (hostID d) roomName) then
          emit (EmitTo (JStr sock) "room-joining-message"
            (DStr ("Sorry, there is already a host for room " +:+ ToString roomName +:+ ".")))
        else
          emit (SocketJoin sock roomName);;
          modify (set_room (<[sock := roomName]>));;
          d ← get;
          emit (EmitTo (JStr sock) "room-joining-message"
            (DStr ("You have joined room " +:+ ToString (getv (room d) (JStr sock)) +:+
                   " and your client name is " +:+ ToString displayName +:+ ".")));;
          modify (set_hostID (<[ToString (getv (room d) (JStr sock)) := sock]>));;
          d ← get;
          emit (EmitTo (JStr sock) "room-joining-message"
            (DStr ("You are the host of room " +:+ ToString (getv (room d) (JStr sock)) +:+ ".")))
      else mret tt
  end.

Definition disconnect (sock : string) : M unit :=
  d ← get;
  when (truthy (getv (userName d) (JStr sock)))
    (d ← get;
     let displayName := setDisplayName d sock "prens" in
     let message := ToString displayName +:+ " has disconnected." in
     d ← get;
     let host := gets (hostID d) (getv (room d) (JStr sock)) in
     emit (EmitTo host "chat message" (DStr (message +:+ ".")));;
     d ← get;
     emit (EmitTo host "client-disconnected" (DVal (getv (userName d) (JStr sock))));;
     removeUserFromMaps sock).

Inductive event : Type :=
  | Connection (query : Auth.t)
  | RoomJoinEv (msgParsed : option RoomJoin.t)
  | Disconnect.

Definition handle (sock : string) (e : event) : M unit :=
  match e with
  | Connection query => connection sock query
  | RoomJoinEv msgParsed => roomJoin sock msgParsed
  | Disconnect => disconnect sock
  end.

Definition run (s : server) (evs : list (string * event)) : server :=
  foldl (λ s se, final (handle se.1 se.2 s)) s evs.

End Rev2021.

(** * The remaining listeners and support functions

    What the JavaScript runtime knows and the maps of [cD] do not record:
    the number of engine clients, and the order in which [for ... in]
    visits the keys of [cD.userName] and of [cD.hostID].  The functions that
    enumerate take it as an argument. *)
Record Env : Type := mkEnv {
  clientsCount : N;
  sockOrder : list string;
  roomOrder : list string
}.

(** [for (let k in obj) body(k)], over the keys in the order given. *)
Fixpoint forEach (keys : list string) (body : string → M unit) : M unit :=
  match keys with
  | [] => mret tt
  | k :: keys' => body k;; forEach keys' body
  end.

(** The strict inequality [a !== b]. *)
Definition strict_ne (a b : jsval) : bool := negb (bool_decide (a = b)).

(** [countValidNames(nameMap)]; the count does not depend on the order in
    which the entries are visited. *)
Definition countValidNames (nameMap : gmap string jsval) : nat :=
  foldr (λ (kv : string * jsval) count,
           let name := kv.2 in
           if truthy name && strict_ne name (JStr "") && strict_ne name JNull
              && strict_ne name JUndefined
           then S count else count)
        0%nat (map_to_list nameMap).

(** [connectionInfo()]. *)
Definition connectionInfo (env : Env) (d : cData) : string :=
  "sockets=" +:+ pretty (clientsCount env) +:+
  ", connection acts=" +:+ pretty (connectionIndex d) +:+
  ", names=" +:+ pretty (size (userName d)) +:+
  ", nick names=" +:+ pretty (countValidNames (nickName d)) +:+
  ", team names=" +:+ pretty (countValidNames (teamName d)).

(** [s.slice(0, -2)]. *)
Definition sliceOff2 (s : string) : string :=
  String.substring 0 (String.length s - 2) s.

(** What the inner loop of [roomReport] appends for one socket. *)
Definition roomReportEntry (d : cData) (roomInMap socket_id : string) : string :=
  let user := getv (userName d) (JStr socket_id) in
  let userNickName := getv (nickName d) (JStr socket_id) in
  let userTeamName := getv (teamName d) (JStr socket_id) in
  let teamString := if truthy userTeamName then "." +:+ ToString userTeamName else "" in
  if loose_eq (getv (room d) (JStr socket_id)) (JStr roomInMap) then
    if loose_eq user (getv (userName d) (gets (hostID d) (JStr roomInMap))) then
      if truthy userNickName
      then ToString user +:+ "(h-" +:+ ToString userNickName +:+ teamString +:+ "), "
      else ToString user +:+ "(h), "
    else
      if truthy userNickName
      then ToString user +:+ "(" +:+ ToString userNickName +:+ teamString +:+ "), "
      else ToString user +:+ ", "
  else "".

(** [roomReport()]. *)
Definition roomReport (env : Env) (d : cData) : string :=
  foldl (λ usersByRoom roomInMap,
           sliceOff2
             (foldl (λ acc socket_id, acc +:+ roomReportEntry d roomInMap socket_id)
                    (usersByRoom +:+ "<br>clients in " +:+ roomInMap +:+ " = ")
                    (sockOrder env)))
        (connectionInfo env d) (roomOrder env).

(** [disconnectClientsInOneRoom(roomName)]. *)
Definition disconnectClientsInOneRoom (socks : list string) (roomName : jsval) : M unit :=
  forEach socks (λ socket_id,
    d ← get;
    when (loose_eq (getv (room d) (JStr socket_id)) roomName)
      (when (negb (loose_eq (JStr socket_id) (gets (hostID d) roomName)))
         (emit (EmitTo (JStr socket_id) "disconnectByServer"
                  (DDisconnectByServer (getv (userName d) (JStr socket_id)) "host"))))).

(** [socket.on('chat message', ...)]. *)
Definition chatMessage (env : Env) (sock : string) (msg : jsval) : M unit :=
  setTimer sock "restart" 40;;
  if loose_eq msg (JStr "dcir") then
    d ← get;
    if loose_eq (JStr sock) (gets (hostID d) (getv (room d) (JStr sock))) then
      disconnectClientsInOneRoom (sockOrder env) (getv (room d) (JStr sock))
    else
      emit (EmitTo (JStr sock) "chat message"
              (DStr "Requests to disconnect clients must come from the host."))
  else if loose_eq msg (JStr "dac") then
    mret tt
  else if loose_eq msg (JStr "rr") then
    d ← get;
    if loose_eq (JStr sock) (gets (hostID d) (getv (room d) (JStr sock))) then
      emit (EmitTo (gets (hostID d) (getv (room d) (JStr sock))) "chat message"
              (DStr (roomReport env d)))
    else
      emit (EmitTo (JStr sock) "chat message"
              (DStr "Requests for room reports must come from the host."))
  else
    d ← get;
    emit (EmitTo (getv (room d) (JStr sock)) "chat message"
            (DStr (ToString msg +:+ " (" +:+
                   ToString (setDisplayName d sock "comma") +:+ ")"))).

(** [socket.on('clientDisconnectByHost', ...)]. *)
Definition clientDisconnectByHost (sock : string) (msg : jsval) : M unit :=
  let clientName := msg in
  d ← get;
  let clientID := gets (ids d) clientName in
  emit (EmitTo clientID "disconnectByServer" (DDisconnectByServer clientName "host")).

(** [socket.on('shutDown-p2p-deleteClient', ...)]. *)
Definition shutDownP2P (sock : string) (msg : jsval) : M unit :=
  let clientName := msg in
  d ← get;
  let clientID := gets (ids d) clientName in
  let host := gets (hostID d) (getv (room d) clientID) in
  emit (EmitTo host "shutDown-p2p-deleteClient" (DVal clientName)).

(** ** Listeners that broadcast without the sender or relay a control message *)

(** The [data] of a control message when it is an object, and the message
    when it is one; [None] stands for [null] or [undefined], on which a
    property read throws. *)
Record ctldata : Type := mkCtlData { displayThis : jsval; data_body : wire }.
Record ctlmsg : Type := mkCtl { ctl_to : jsval; ctl_data : option ctldata; ctl_body : wire }.

(** The [names] of a request for a name report, when it is an object, and
    the object that [nameReport] returns. *)
Record names : Type := mkNames { names_nickName : jsval; names_teamName : jsval }.
Record nameReportT : Type := mkNameReport {
  report_nickName : string;
  report_teamName : string;
  teamMemberCount : nat
}.

Inductive xaction : Type :=
  | Act (a : action)
  | SocketTo (sock : string) (target : jsval) (event : string) (data : edata)
      (* socket.to(target).emit(event, data): everyone in the room but the sender *)
  | EmitControl (target : jsval) (msg : ctlmsg)
      (* io.to(target).emit('control message', msg) *)
  | SocketToControl (sock : string) (target : jsval) (msg : ctlmsg)
      (* socket.to(target).emit('control message', msg) *)
  | EmitNameReport (target : jsval) (report : nameReportT).
      (* io.to(target).emit('name report', report) *)

Record xres (A : Type) : Type := mkXRes {
  xresult : outcome A;
  xfinal : server;
  xlog : list xaction
}.
Arguments mkXRes {A} _ _ _.
Arguments xresult {A} _.
Arguments xfinal {A} _.
Arguments xlog {A} _.

(** The handler monad with the larger log. *)
Definition MX (A : Type) : Type := server → xres A.

#[global] Instance MX_ret : MRet MX := λ A a s, mkXRes (Val a) s [].
#[global] Instance MX_bind : MBind MX := λ A B f m s,
  match m s with
  | mkXRes (Val a) s' l =>
      match f a s' with
      | mkXRes r s'' l' => mkXRes r s'' (l ++ l')
      end
  | mkXRes TypeError s' l => mkXRes TypeError s' l
  | mkXRes OutOfFuel s' l => mkXRes OutOfFuel s' l
  end.

(** A handler of the first model, its actions kept. *)
Definition liftM {A} (m : M A) : MX A :=
  λ s, match m s with mkRes r s' l => mkXRes r s' (Act <$> l) end.
Definition xemit (a : xaction) : MX unit := λ s, mkXRes (Val tt) s [a].
Definition xthrowTypeError {A} : MX A := λ s, mkXRes TypeError s [].

(** [socket.on('chat message but not me', ...)]. *)
Definition chatMessageButNotMe (sock : string) (msg : jsval) : MX unit :=
  d ← liftM get;
  xemit (SocketTo sock (getv (room d) (JStr sock)) "chat message"
           (DStr (ToString msg +:+ " (" +:+
                  ToString (setDisplayName d sock "comma") +:+ ")"))).

(** The loop of the control message listener that looks for a socket with
    the nickname [to]: a later match replaces an earlier one. *)
Definition findNick (d : cData) (to : jsval) (socks : list string) : jsval :=
  foldl (λ nickName_id socket_id,
           if truthy (getv (nickName d) (JStr socket_id))
              && loose_eq (getv (nickName d) (JStr socket_id)) to
           then JStr socket_id else nickName_id)
        JNull socks.

(** [socket.on('control message', ...)]. *)
Definition controlMessage (socks : list string) (sock : string)
    (msg : option ctlmsg) : MX unit :=
  match msg with
  | None => xthrowTypeError
  | Some m =>
      match ctl_data m with
      | None => xthrowTypeError
      | Some data =>
          d ← liftM get;
          let data' :=
            if truthy (displayThis data) then
              mkCtlData (JStr (ToString (displayThis data) +:+ " (" +:+
                               ToString (setDisplayName d sock "comma") +:+ ")"))
                        (data_body data)
            else data in
          let msg' := mkCtl (ctl_to m) (Some data') (ctl_body m) in
          if loose_eq (ctl_to m) (JStr "host") then
            xemit (EmitControl (gets (hostID d) (getv (room d) (JStr sock))) msg')
          else if loose_eq (ctl_to m) (JStr "room") then
            xemit (EmitControl (getv (room d) (JStr sock)) msg')
          else if loose_eq (ctl_to m) (JStr "roomNoSender") then
            xemit (SocketToControl sock (getv (room d) (JStr sock)) msg')
          else
            let nickName_id := findNick d (ctl_to m) socks in
            let target := if truthy nickName_id then nickName_id
                          else gets (ids d) (ctl_to m) in
            xemit (EmitControl target msg')
      end
  end.

(** ** The name report *)

Definition isDigit (a : Ascii.ascii) : bool :=
  let n := Ascii.N_of_ascii a in (48 <=? n)%N && (n <=? 57)%N.

Fixpoint allDigits (s : string) : bool :=
  match s with
  | EmptyString => true
  | String a r => isDigit a && allDigits r
  end.

(** [s.replace(/\d+$/, "")]: the digits at the end of [s] are removed. *)
Fixpoint stripTrailingDigits (s : string) : string :=
  match s with
  | EmptyString => EmptyString
  | String a r => if allDigits s then EmptyString else String a (stripTrailingDigits r)
  end.

(** [s.startsWith(p)]; the argument is converted to a string. *)
Definition startsWith (s : string) (p : jsval) : bool := String.prefix (ToString p) s.

(** The variables of the loop of [nameReport]. *)
Record reportAcc : Type := mkAcc {
  nickNameList : string;
  nickNameArray : list jsval;
  teamNameList : string;
  teamNameArray : list jsval;
  teamCount : nat
}.

(** One turn of the loop of [nameReport]. *)
Definition nameReportStep (d : cData) (nm : names)
    (nickNameNoNumbers teamNameNoNumbers : jsval) (socket_id_target : string)
    (acc : reportAcc) (socket_id : string) : reportAcc :=
  let nickNameRaw := getv (nickName d) (JStr socket_id) in
  let acc :=
    if truthy nickNameRaw && startsWith (ToString nickNameRaw) nickNameNoNumbers
       && negb (bool_decide (nickNameRaw ∈ nickNameArray acc))
    then
      let nickNameFormatted :=
        if String.eqb socket_id socket_id_target
        then "<strong>" +:+ ToString nickNameRaw +:+ "</strong>"
        else ToString nickNameRaw in
      mkAcc (nickNameList acc +:+ nickNameFormatted +:+ ", ")
            (nickNameArray acc ++ [nickNameRaw])
            (teamNameList acc) (teamNameArray acc) (teamCount acc)
    else acc in
  let teamNameRaw := getv (teamName d) (JStr socket_id) in
  let acc :=
    if truthy (names_teamName nm) && loose_eq teamNameRaw (names_teamName nm)
    then mkAcc (nickNameList acc) (nickNameArray acc)
               (teamNameList acc) (teamNameArray acc) (S (teamCount acc))
    else acc in
  if truthy teamNameRaw && startsWith (ToString teamNameRaw) teamNameNoNumbers
     && negb (bool_decide (teamNameRaw ∈ teamNameArray acc))
  then
    let teamNameFormatted :=
      if loose_eq teamNameRaw (names_teamName nm)
      then "<strong>" +:+ ToString teamNameRaw +:+ "</strong>"
      else ToString teamNameRaw in
    mkAcc (nickNameList acc) (nickNameArray acc)
          (teamNameList acc +:+ teamNameFormatted +:+ ", ")
          (teamNameArray acc ++ [teamNameRaw]) (teamCount acc)
  else acc.

(** [nameReport(names, socket_id_target)]; [None] is a [names] that is
    [null] or [undefined].  A [names.nickName] that is not a string has no
    [replace]. *)
Definition nameReport (socks : list string) (nm : option names)
    (socket_id_target : string) : M nameReportT :=
  match nm with
  | None => throwTypeError
  | Some nm =>
      match names_nickName nm with
      | JStr nick =>
          let nickNameNoNumbers := JStr (stripTrailingDigits nick) in
          let teamNameNoNumbers :=
            if truthy (names_teamName nm)
            then JStr (stripTrailingDigits (ToString (names_teamName nm)))
            else JUndefined in
          d ← get;
          let acc :=
            foldl (nameReportStep d nm nickNameNoNumbers teamNameNoNumbers
                     socket_id_target)
                  (mkAcc "" [] "" [] 0) socks in
          mret (mkNameReport (sliceOff2 (nickNameList acc))
                             (sliceOff2 (teamNameList acc)) (teamCount acc))
      | _ => throwTypeError
      end
  end.

(** [socket.on('name report', ...)]. *)
Definition nameReportListener (socks : list string) (sock : string)
    (nm : option names) : MX unit :=
  report ← liftM (nameReport socks nm sock);
  xemit (EmitNameReport (JStr sock) report).

(** ** All the events *)

(** The events of the first model, and those of the listeners above; the
    listeners that enumerate carry what they enumerate. *)
Inductive xevent : Type :=
  | Ev (e : event)
  | ChatMessage (env : Env) (msg : jsval)
  | ChatMessageButNotMe (msg : jsval)
  | ControlMessage (socks : list string) (msg : option ctlmsg)
  | ClientDisconnectByHost (msg : jsval)
  | ShutDownP2P (msg : jsval)
  | NameReport (socks : list string) (nm : option names).

Definition xhandle (sock : string) (e : xevent) : MX unit :=
  match e with
  | Ev e => liftM (handle sock e)
  | ChatMessage env msg => liftM (chatMessage env sock msg)
  | ChatMessageButNotMe msg => chatMessageButNotMe sock msg
  | ControlMessage socks msg => controlMessage socks sock msg
  | ClientDisconnectByHost msg => liftM (clientDisconnectByHost sock msg)
  | ShutDownP2P msg => liftM (shutDownP2P sock msg)
  | NameReport socks nm => nameReportListener socks sock nm
  end.

Definition xstep (s : server) (se : string * xevent) : server :=
  xfinal (xhandle se.1 se.2 s).
Definition xrun (s : server) (evs : list (string * xevent)) : server :=
  foldl xstep s evs.

(** * Vocabulary of the properties *)

(** ** Pure readings of the handlers *)

(** [cD] after [removeUserFromMaps(clientID)]. *)
Definition removeUser (clientID : string) (d : cData) : cData :=
  mkData (connectionIndex d) (nameIndex d)
    (delete clientID (userName d))
    (if truthy (getv (nickName d) (JStr clientID))
     then delete clientID (nickName d) else nickName d)
    (if truthy (getv (teamName d) (JStr clientID))
     then delete clientID (teamName d) else teamName d)
    (delete (ToString (getv (userName d) (JStr clientID))) (ids d))
    (delete clientID (room d))
    (if loose_eq (gets (hostID d) (getv (room d) (JStr clientID))) (JStr clientID)
     then delete (ToString (getv (room d) (JStr clientID))) (hostID d)
     else hostID d).

(** The index the loop stops at, as a function of the counter and the names:
    the pure content of [nameLoop]. *)
Fixpoint firstFree (fuel : nat) (idx : N) (names : gmap string jsval) : option N :=
  match fuel with
  | O => None
  | S fuel' =>
      if nameInUse (JStr (uname (idx + 1))) names
      then firstFree fuel' (idx + 1) names
      else Some (idx + 1)%N
  end.

(** The nickname stored for a connection named [user_name] that hints [nick]. *)
Definition storedNick (nick : jsval) (user_name : string)
    (nicks : gmap string jsval) : jsval :=
  if truthy (setDefault nick JNull) && nameInUse (setDefault nick JNull) nicks
  then JStr (ToString (setDefault nick JNull) +:+ slice1 user_name)
  else setDefault nick JNull.

(** [cD] after the connection handler has registered [sock] as [user_name]. *)
Definition register (sock user_name : string) (auth : Auth.t) (d : cData) : cData :=
  mkData (connectionIndex d + 1)%N (nameIndex d)
    (<[sock := JStr user_name]> (userName d))
    (<[sock := storedNick (Auth.nickName auth) user_name (nickName d)]> (nickName d))
    (<[sock := setDefault (Auth.teamName auth) JNull]> (teamName d))
    (<[user_name := sock]> (ids d))
    (room d) (hostID d).

(** What [setTimer] leaves in the closure of the socket. *)
Definition rearm (reset : string) (t_min : Z) (t : sockTimers) : sockTimers :=
  mkTimers (Some t_min)
    (if String.eqb reset "extend" then None else Some t_min)
    (if String.eqb reset "initialize" || String.eqb reset "restart"
     then t_min else idleTime_m t).

(** The text of [disconnectNotice] in the logoff callback. *)
Definition disconnectNotice (idle : Z) : string :=
  "Idle for " +:+ toFixed1 idle +:+ " minutes. Network socket disconnected.".

(** The test [socket.id == cD.hostID[cD.room[socket.id]]]. *)
Definition isHost (d : cData) (sock : string) : bool :=
  loose_eq (JStr sock) (gets (hostID d) (getv (room d) (JStr sock))).

(** The advisory a refused host receives. *)
Definition alreadyHosted (d : cData) (sock : string) (roomName : jsval) : action :=
  EmitTo (JStr sock) "room-joining-message"
    (DRoomJoining
       ("Sorry, there is already a host for room " +:+ ToString roomName +:+ ".")
       (getv (userName d) (JStr sock)) None).

(** ** What one event can do to [cD] *)

(** A handler other than the connection handler, run for the socket [sock],
    changes [cD] in one of four ways: not at all, by removing [sock] from the
    maps, by recording a room for [sock], or by recording [sock] as the host
    of a room that had none. *)
Inductive cD_quiet (sock : string) (d : cData) : cData → Prop :=
  | cq_same : cD_quiet sock d d
  | cq_remove : cD_quiet sock d (removeUser sock d)
  | cq_join r :
      truthy (gets (hostID d) r) = true →
      cD_quiet sock d (set_room (<[sock := r]>) d)
  | cq_host r :
      truthy (gets (hostID d) r) = false →
      cD_quiet sock d (set_hostID (<[ToString r := sock]>) (set_room (<[sock := r]>) d)).

(** The connection handler counts a connection attempt that aborted, or
    registers [sock]. *)
Inductive cD_step (sock : string) (d : cData) : cData → Prop :=
  | cs_quiet d' : cD_quiet sock d d' → cD_step sock d d'
  | cs_abort :
      cD_step sock d (set_connectionIndex (λ n, n + 1)%N d)
  | cs_register n user_name nick team :
      (nameIndex d ≤ n)%N →
      cD_step sock d
        (mkData (connectionIndex d + 1)%N n
           (<[sock := user_name]> (userName d))
           (<[sock := nick]> (nickName d))
           (<[sock := team]> (teamName d))
           (<[ToString user_name := sock]> (ids d))
           (room d) (hostID d)).

Definition isConnection (e : event) : bool :=
  match e with Connection _ => true | _ => false end.


(** The events of a socket that neither register it nor can remove it:
    its messages other than [okDisconnectMe], and its warning alarm. *)
Definition staysRegistered (e : event) : bool :=
  match e with
  | Connection _ | Disconnect | OkDisconnectMe _ | LogoffAlarm => false
  | _ => true
  end.

(** ** Predicates on the maps *)

(** The display names of the registered connections are pairwise distinct. *)
Definition namesDistinct (d : cData) : Prop :=
  ∀ c1 c2 v, userName d !! c1 = Some v → userName d !! c2 = Some v → c1 = c2.

(** Every stored name is a string, and [cD.userName] and [cD.id] are inverse
    to each other. *)
Definition registryInv (d : cData) : Prop :=
  (∀ c v, userName d !! c = Some v → ∃ n, v = JStr n)
  ∧ (∀ c n, userName d !! c = Some (JStr n) ↔ ids d !! n = Some c).

(** The four maps of the identity registry. *)
Definition registry (d : cData) :=
  (userName d, nickName d, teamName d, ids d).

(** What a refusal of the connection attempt would be: the handler does not
    end normally and the identity registry is as before. *)
Definition reattachRefused (s : server) (sock : string) (auth : Auth.t) : Prop :=
  result (connection sock auth s) ≠ Val tt
  ∧ registry (cD (final (connection sock auth s))) = registry (cD s).

(** The socket occurs in none of the six maps, as a key or as a value. *)
Definition absentFromMaps (sock : string) (d : cData) : Prop :=
  userName d !! sock = None
  ∧ nickName d !! sock = None
  ∧ teamName d !! sock = None
  ∧ room d !! sock = None
  ∧ (∀ n, ids d !! n ≠ Some sock)
  ∧ (∀ r, hostID d !! r ≠ Some sock).

(** ** Sequences of connection events *)

(** The connection events of a socket: a first connect, a re-connect that
    hints a name no registered connection holds, and a disconnect.  The
    transport gives every new connection a socket id that is not registered.
    Between them, a socket that is registered under a truthy name may send
    any message, and its alarms may fire. *)
Inductive connEvent (s : server) : string * event → Prop :=
  | ce_normal sock nick team :
      userName (cD s) !! sock = None →
      connEvent s (sock, Connection (normalAuth nick team))
  | ce_reconnect sock n nick team :
      userName (cD s) !! sock = None →
      nameInUse (JStr n) (userName (cD s)) = false →
      connEvent s (sock, Connection (reconnectAuth (JStr n) nick team))
  | ce_disconnect sock :
      connEvent s (sock, Disconnect)
  | ce_registered sock e :
      isConnection e = false →
      truthy (getv (userName (cD s)) (JStr sock)) = true →
      connEvent s (sock, e).

Inductive connTrace : server → list (string * event) → Prop :=
  | ct_nil s : connTrace s []
  | ct_cons s e evs :
      connEvent s e → connTrace (step s e) evs → connTrace s (e :: evs).

(** ** Scenarios *)


(** One registered connection, [u1]. *)
Definition C3_state : server :=
  run server0 [("a", Connection (normalAuth JUndefined JUndefined))].


(** The same room, the client with a nickname and a team. *)
Definition C6_state : server :=
  run server0
    [("h", Connection (normalAuth JUndefined JUndefined));
     ("h", RoomJoinEv (joinMsg "r" "host"));
     ("c", Connection (normalAuth (JStr "Al") (JStr "red")));
     ("c", RoomJoinEv (joinMsg "r" "client"))].



(** ** Scenarios for the rest of the server *)

(** One registered connection, [a] as [u1], and no room. *)
Definition lobby : server :=
  run server0 [("a", Connection (normalAuth JUndefined JUndefined))].

(** The room [r] with its host [h] ([u1]) and the client [c] ([u2], nicknamed
    [Al], of team [red]). *)
Definition hostedRoom : server :=
  run server0
    [("h", Connection (normalAuth JUndefined JUndefined));
     ("h", RoomJoinEv (joinMsg "r" "host"));
     ("c", Connection (normalAuth (JStr "Al") (JStr "red")));
     ("c", RoomJoinEv (joinMsg "r" "client"))].

(** ** Vocabulary for the rest of the server *)

(** The sockets that [dcir] asks to leave: those of the enumeration whose
    room is the room given and that are not its recorded host. *)
Definition dcirTargets (d : cData) (roomName : jsval) (socks : list string) : list string :=
  List.filter
    (λ socket_id,
       loose_eq (getv (room d) (JStr socket_id)) roomName
       && negb (loose_eq (JStr socket_id) (gets (hostID d) roomName)))
    socks.

(** The request [dcir] sends to one of them. *)
Definition dcirNotice (d : cData) (socket_id : string) : action :=
  EmitTo (JStr socket_id) "disconnectByServer"
    (DDisconnectByServer (getv (userName d) (JStr socket_id)) "host").

(** The text that both chat listeners broadcast. *)
Definition chatLine (d : cData) (sock : string) (msg : jsval) : string :=
  ToString msg +:+ " (" +:+ ToString (setDisplayName d sock "comma") +:+ ")".

(** An enumeration of the keys of a map: every key once. *)
Definition enumerates {A} (keys : list string) (m : gmap string A) : Prop :=
  NoDup keys ∧ ∀ k, k ∈ keys ↔ is_Some (m !! k).

Definition isConnectionX (e : xevent) : bool :=
  match e with Ev (Connection _) => true | _ => false end.

(** The number of connection events in a sequence of events. *)
Definition connectionCount (evs : list (string * xevent)) : nat :=
  length (List.filter (λ se : string * xevent, isConnectionX se.2) evs).

(** The test of the loop of the control message listener: the socket has
    a nickname and it is the addressee. *)
Definition hasNick (d : cData) (to : jsval) (socket_id : string) : bool :=
  truthy (getv (nickName d) (JStr socket_id))
  && loose_eq (getv (nickName d) (JStr socket_id)) to.

(** The addressee and the message of a relayed control message. *)
Definition relayedControl (a : xaction) : option (jsval * ctlmsg) :=
  match a with
  | EmitControl target m | SocketToControl _ target m => Some (target, m)
  | _ => None
  end.

(** The emissions that leave out the sender. *)
Definition exceptSender (a : xaction) : bool :=
  match a with
  | SocketTo _ _ _ _ | SocketToControl _ _ _ => true
  | _ => false
  end.



(** What the sockets of the enumeration add to the report for one room. *)
Definition roomEntries (d : cData) (socks : list string) (r : string) : string :=
  foldr (λ socket_id acc, roomReportEntry d r socket_id +:+ acc) "" socks.

(** The line of one room in the report. *)
Definition roomLine (d : cData) (socks : list string) (r : string) : string :=
  "<br>clients in " +:+ r +:+ sliceOff2 (" = " +:+ roomEntries d socks r).

(** The sockets of the enumeration whose team entry is [team]. *)
Definition teamMembers (d : cData) (team : jsval) (socks : list string) : list string :=
  List.filter (λ c, bool_decide (teamName d !! c = Some team)) socks.

(** ** Running the monad *)

(** Unfold the monad and the record updates, and project. *)
Ltac mstep :=
  unfold mbind, M_bind, mret, M_ret, get, getTimers, modify, modifyTimers,
         updTimers, emit, throwTypeError, outOfFuel, when,
         with_cD, with_timers,
         set_connectionIndex, set_nameIndex, set_userName, set_nickName,
         set_teamName, set_ids, set_room, set_hostID,
         set_idleTime, set_warning, set_logoff;
  cbn [result final log app cD timers
       connectionIndex nameIndex userName nickName teamName ids room hostID
       logoffTimer warningTimer idleTime_m
       Auth.mode Auth.currentName Auth.nickName Auth.teamName
       RoomJoin.roomName RoomJoin.requestStream RoomJoin.player
       RoomJoin.hostOrClient].

(** Decide the comparisons between literals. *)
Ltac mlit :=
  repeat match goal with
  | |- context [loose_eq (JStr ?a) (JStr ?b)] =>
      let v := eval lazy in (loose_eq (JStr a) (JStr b)) in
      match v with true => idtac | false => idtac end;
      change (loose_eq (JStr a) (JStr b)) with v
  | |- context [String.eqb ?a ?b] =>
      let v := eval lazy in (String.eqb a b) in
      match v with true => idtac | false => idtac end;
      change (String.eqb a b) with v
  end; cbn [negb andb orb].

Ltac msimpl := repeat (progress (mstep; mlit)).

(** Case on the guard of a conditional that blocks the computation. *)
Ltac mcase :=
  match goal with
  | |- context [(if ?c then _ else _) _] => destruct c eqn:?
  end; msimpl.

(** The same for the monad with the larger log. *)
Ltac xmsimpl :=
  repeat (progress
    (unfold mbind, MX_bind, mret, MX_ret, liftM, xemit, xthrowTypeError;
     cbn [xresult xfinal xlog fmap list_fmap ctl_to ctl_data ctl_body
          displayThis data_body];
     msimpl)).

(** * Properties *)

(** ** The model at work *)

Example removeUser_demo :
  final (removeUserFromMaps "a"
     (mkServer (mkData 1 1 {["a" := JStr "u1"]} {["a" := JNull]} {["a" := JNull]}
                  {["u1" := "a"]} {["a" := JStr "r"]} {["r" := "a"]}) ∅))
  = mkServer (mkData 1 1 ∅ {["a" := JNull]} {["a" := JNull]} ∅ ∅ ∅) ∅.
Proof. vm_compute. reflexivity. Qed.

Example nameInUse_demo :
  nameInUse (JStr "u1") {["a" := JStr "u1"; "b" := JNull]} = true
  ∧ nameInUse (JStr "u2") {["a" := JStr "u1"; "b" := JNull]} = false
  ∧ uname 12 = "u12".
Proof. vm_compute. done. Qed.

(** ** The effect of [removeUserFromMaps] *)

Lemma removeUserFromMaps_run clientID s :
  removeUserFromMaps clientID s
  = mkRes (Val tt) (mkServer (removeUser clientID (cD s)) (timers s)) [].
Proof.
  unfold removeUserFromMaps, removeUser. destruct s as [d tm]. mstep.
  destruct (loose_eq _ _); mstep;
    destruct (truthy (getv (nickName d) _)); mstep;
    destruct (truthy (getv (teamName d) _)); mstep; reflexivity.
Qed.

(** ** Names in use and the minting loop *)

Lemma loose_eq_str v n : loose_eq v (JStr n) = true ↔ v = JStr n.
Proof.
  destruct v as [| |s]; simpl; try (split; [discriminate | discriminate]).
  rewrite String.eqb_eq. split; congruence.
Qed.

Lemma nameInUse_true n (m : gmap string jsval) :
  nameInUse (JStr n) m = true ↔ ∃ k, m !! k = Some (JStr n).
Proof.
  unfold nameInUse. rewrite existsb_exists. split.
  - intros ([k v] & Hk & Hv). cbn [snd] in Hv. apply loose_eq_str in Hv. subst.
    exists k. by apply elem_of_map_to_list, list_elem_of_In.
  - intros (k & Hk). exists (k, JStr n). split.
    + by apply list_elem_of_In, elem_of_map_to_list.
    + by apply loose_eq_str.
Qed.

Lemma nameInUse_false n (m : gmap string jsval) :
  nameInUse (JStr n) m = false ↔ ∀ k, m !! k ≠ Some (JStr n).
Proof.
  rewrite <- not_true_iff_false, nameInUse_true. split.
  - intros H k Hk. apply H. eauto.
  - intros H (k & Hk). by apply (H k).
Qed.

Lemma uname_inj a b : uname a = uname b → a = b.
Proof. unfold uname. simpl. intros H. injection H as H. by apply (inj pretty). Qed.

Lemma slice1_uname n : slice1 (uname n) = pretty n.
Proof. reflexivity. Qed.

Lemma nameLoop_run fuel s :
  nameLoop fuel s =
  match firstFree fuel (nameIndex (cD s)) (userName (cD s)) with
  | Some n => mkRes (Val (JStr (uname n))) (with_cD (set_nameIndex (λ _, n)) s) []
  | None => mkRes OutOfFuel
              (with_cD (set_nameIndex (λ n, n + N.of_nat fuel)%N) s) []
  end.
Proof.
  revert s. induction fuel as [|fuel IH]; intros [d tm].
  - cbn [nameLoop firstFree]. mstep. rewrite N.add_0_r. by destruct d.
  - cbn [nameLoop firstFree]. mstep.
    destruct (nameInUse _ _) eqn:Hu.
    + rewrite IH. mstep.
      destruct (firstFree _ _ _); mstep; [done|].
      do 3 f_equal. lia.
    + reflexivity.
Qed.

Lemma firstFree_spec fuel idx names n :
  firstFree fuel idx names = Some n →
  (idx < n)%N ∧ nameInUse (JStr (uname n)) names = false ∧
  ∀ k, (idx < k < n)%N → nameInUse (JStr (uname k)) names = true.
Proof.
  revert idx. induction fuel as [|fuel IH]; intros idx; [discriminate|].
  cbn [firstFree]. destruct (nameInUse (JStr (uname (idx + 1))) names) eqn:Hu.
  - intros H. destruct (IH _ H) as (Hlt & Hfree & Hbelow).
    split; [lia|]. split; [done|]. intros k Hk.
    destruct (decide (k = idx + 1)%N) as [->|]; [done|]. apply Hbelow. lia.
  - intros [= <-]. split; [lia|]. split; [done|]. intros k Hk. lia.
Qed.

Lemma firstFree_ext fuel idx (m m' : gmap string jsval) :
  (∀ j, (idx < j)%N → nameInUse (JStr (uname j)) m = nameInUse (JStr (uname j)) m') →
  firstFree fuel idx m = firstFree fuel idx m'.
Proof.
  revert idx. induction fuel as [|fuel IH]; intros idx H; [done|].
  cbn [firstFree]. rewrite <- H by lia.
  destruct (nameInUse _ m); [|done]. apply IH. intros j Hj. apply H. lia.
Qed.

Lemma nameInUse_delete_other n n' k (m : gmap string jsval) :
  m !! k = Some (JStr n') → n ≠ n' →
  nameInUse (JStr n) (delete k m) = nameInUse (JStr n) m.
Proof.
  intros Hk Hne. apply eq_true_iff_eq. rewrite !nameInUse_true. split.
  - intros (k' & Hk'). apply lookup_delete_Some in Hk' as [_ Hk']. eauto.
  - intros (k' & Hk'). exists k'. apply lookup_delete_Some. split; [|done].
    intros ->. congruence.
Qed.

(** The loop stops within [size names + 1] iterations. *)
Lemma firstFree_terminates fuel idx (names : gmap string jsval) :
  (size names < fuel)%nat → is_Some (firstFree fuel idx names).
Proof.
  revert idx names. induction fuel as [|fuel IH]; intros idx names Hsz; [lia|].
  cbn [firstFree]. destruct (nameInUse _ _) eqn:Hu; [|eauto].
  apply nameInUse_true in Hu as (k & Hk).
  rewrite (firstFree_ext _ _ names (delete k names)).
  - apply IH. rewrite map_size_delete, Hk. simpl.
    assert (size names ≠ 0); [|lia].
    intros H0. apply map_size_empty_inv in H0. subst. by rewrite lookup_empty in Hk.
  - intros j Hj. symmetry. eapply nameInUse_delete_other; [done|].
    intros Heq. apply uname_inj in Heq. lia.
Qed.


(** ** The effect of the connection handler on [cD] *)

Lemma setTimer_run sock reset t_min s :
  setTimer sock reset t_min s
  = mkRes (Val tt)
      (mkServer (cD s) (<[sock := rearm reset t_min (timersOf s sock)]> (timers s))) [].
Proof.
  unfold setTimer, rearm, timersOf. destruct s as [d tm].
  destruct (String.eqb reset "initialize") eqn:E1;
    [apply String.eqb_eq in E1; subst reset|];
    [|destruct (String.eqb reset "restart") eqn:E2;
      [apply String.eqb_eq in E2; subst reset|]];
    [| |destruct (String.eqb reset "extend") eqn:E3;
      [apply String.eqb_eq in E3; subst reset|]];
    msimpl; rewrite ?E3; msimpl;
    rewrite ?lookup_insert_eq, ?insert_insert_eq;
    cbn [default from_option id logoffTimer warningTimer idleTime_m];
    reflexivity.
Qed.

Lemma connection_normal_run sock nick team s :
  ∃ n, firstFree (S (size (userName (cD s)))) (nameIndex (cD s)) (userName (cD s)) = Some n
     ∧ result (connection sock (normalAuth nick team) s) = Val tt
     ∧ cD (final (connection sock (normalAuth nick team) s))
       = register sock (uname n) (normalAuth nick team) (set_nameIndex (λ _, n) (cD s)).
Proof.
  destruct (firstFree_terminates (S (size (userName (cD s)))) (nameIndex (cD s))
              (userName (cD s))) as [n Hn]; [lia|].
  exists n. split; [done|].
  unfold connection, normalAuth, register, storedNick. destruct s as [d tm]. msimpl.
  rewrite nameLoop_run. msimpl. cbn [cD userName nameIndex] in Hn. rewrite Hn.
  msimpl.
  destruct (truthy (setDefault nick JNull) && nameInUse (setDefault nick JNull) (nickName d));
    msimpl; mcase; rewrite setTimer_run; msimpl; done.
Qed.

Lemma connection_reconnect_run sock name nick team s :
  result (connection sock (reconnectAuth (JStr name) nick team) s) = Val tt
  ∧ cD (final (connection sock (reconnectAuth (JStr name) nick team) s))
    = register sock name (reconnectAuth (JStr name) nick team) (cD s).
Proof.
  unfold connection, reconnectAuth, register, storedNick. destruct s as [d tm]. msimpl.
  destruct (truthy (setDefault nick JNull) && nameInUse (setDefault nick JNull) (nickName d));
    msimpl; mcase; rewrite setTimer_run; msimpl; done.
Qed.

(** ** What one event can do to [cD] *)

Lemma cD_eta d :
  mkData (connectionIndex d) (nameIndex d) (userName d) (nickName d)
         (teamName d) (ids d) (room d) (hostID d) = d.
Proof. by destruct d. Qed.

Lemma connection_cD_step sock auth s :
  cD_step sock (cD s) (cD (final (connection sock auth s))).
Proof.
  unfold connection. destruct s as [d tm]. msimpl.
  destruct (loose_eq (Auth.mode auth) (JStr "normal")) eqn:Hmode; msimpl.
  - rewrite nameLoop_run. msimpl.
    destruct (firstFree_terminates (S (size (userName d))) (nameIndex d)
                (userName d)) as [n Hn]; [lia|].
    rewrite Hn. msimpl. apply firstFree_spec in Hn as (Hlt & _ & _).
    destruct (truthy (setDefault (Auth.nickName auth) JNull) &&
              nameInUse (setDefault (Auth.nickName auth) JNull) (nickName d));
      msimpl; mcase; rewrite setTimer_run; msimpl;
      apply (cs_register sock d n); lia.
  - destruct (loose_eq (Auth.mode auth) (JStr "re-connect")); msimpl;
      destruct (truthy (setDefault (Auth.nickName auth) JNull) &&
                nameInUse (setDefault (Auth.nickName auth) JNull) (nickName d));
      msimpl;
      try (destruct (Auth.currentName auth) eqn:Hname; msimpl);
      try apply cs_abort;
      mcase; rewrite setTimer_run; msimpl;
      apply (cs_register sock d (nameIndex d)); lia.
Qed.

Lemma getv_insert (m : gmap string jsval) sock v :
  getv (<[sock := v]> m) (JStr sock) = v.
Proof. unfold getv. cbn [ToString]. by rewrite lookup_insert_eq. Qed.

Lemma roomJoin_cD_quiet sock msg s :
  cD_quiet sock (cD s) (cD (final (roomJoin sock msg s))).
Proof.
  unfold roomJoin. destruct s as [d tm]. destruct msg as [m|]; msimpl;
    [|rewrite ?cD_eta; apply cq_same].
  destruct (loose_eq (setDefault (RoomJoin.hostOrClient m) (JStr "client"))
              (JStr "client")); msimpl.
  - destruct (truthy (gets (hostID d) (setDefault (RoomJoin.roomName m) JNull)))
      eqn:Hhost; msimpl.
    + by apply (cq_join sock d).
    + rewrite ?cD_eta. apply cq_same.
  - destruct (loose_eq (setDefault (RoomJoin.hostOrClient m) (JStr "client"))
                (JStr "host")); msimpl; [|rewrite ?cD_eta; apply cq_same].
    destruct (truthy (gets (hostID d) (setDefault (RoomJoin.roomName m) JNull)))
      eqn:Hhost; msimpl.
    + rewrite ?cD_eta. apply cq_same.
    + rewrite getv_insert. by apply (cq_host sock d).
Qed.

(** [roomJoin] writes to [cD.room] and [cD.hostID] only. *)
Lemma roomJoin_registry sock msg s :
  registry (cD (final (roomJoin sock msg s))) = registry (cD s)
  ∧ nameIndex (cD (final (roomJoin sock msg s))) = nameIndex (cD s).
Proof.
  unfold roomJoin, registry. destruct s as [d tm]. destruct msg as [m|]; msimpl;
    [|done].
  destruct (loose_eq (setDefault (RoomJoin.hostOrClient m) (JStr "client"))
              (JStr "client")); msimpl.
  - destruct (truthy (gets (hostID d) (setDefault (RoomJoin.roomName m) JNull)));
      msimpl; done.
  - destruct (loose_eq (setDefault (RoomJoin.hostOrClient m) (JStr "client"))
                (JStr "host")); msimpl; [|done].
    destruct (truthy (gets (hostID d) (setDefault (RoomJoin.roomName m) JNull)));
      msimpl; done.
Qed.

Lemma disconnect_run sock s :
  disconnect sock s =
  if truthy (getv (userName (cD s)) (JStr sock)) then
    mkRes (Val tt) (mkServer (removeUser sock (cD s)) (timers s))
      [EmitTo (gets (hostID (cD s)) (getv (room (cD s)) (JStr sock)))
         "chat message"
         (DStr ((ToString (setDisplayName (cD s) sock "prens")
                 +:+ " has disconnected.") +:+ "."));
       EmitTo (gets (hostID (cD s)) (getv (room (cD s)) (JStr sock)))
         "client-disconnected" (DVal (getv (userName (cD s)) (JStr sock)))]
  else mkRes (Val tt) s [].
Proof.
  unfold disconnect. destruct s as [d tm]. msimpl.
  destruct (truthy (getv (userName d) (JStr sock))); msimpl; [|by rewrite ?cD_eta].
  rewrite removeUserFromMaps_run. msimpl. by rewrite ?cD_eta.
Qed.

Lemma okDisconnectMe_run sock msg s :
  okDisconnectMe sock msg s =
  mkRes (Val tt) (mkServer (removeUser sock (cD s)) (timers s))
    [EmitTo (gets (hostID (cD s)) (getv (room (cD s)) (gets (ids (cD s)) msg)))
       "chat message" (DStr (ToString msg +:+ " has disconnected"));
     EmitTo (gets (hostID (cD s)) (getv (room (cD s)) (gets (ids (cD s)) msg)))
       "client-disconnected" (DVal msg);
     SocketDisconnect sock].
Proof.
  unfold okDisconnectMe. destruct s as [d tm]. msimpl.
  rewrite removeUserFromMaps_run. msimpl. by rewrite ?cD_eta.
Qed.

(** The relay handlers neither write to [cD] nor touch the timers. *)
Lemma relay_final sock s :
  (∀ msg, final (echoFromClient sock msg s) = s)
  ∧ (∀ msg, final (echoFromHost sock msg s) = s)
  ∧ (∀ msg, final (signalingMessage sock msg s) = s)
  ∧ (∀ msg, final (clientMKEvent sock msg s) = s)
  ∧ (∀ msg, final (commandFromHost sock msg s) = s).
Proof.
  destruct s as [d tm].
  split; [|split; [|split; [|split]]]; intros msg.
  - unfold echoFromClient.
    destruct (loose_eq msg (JStr "server")); msimpl; [done|].
    destruct (loose_eq msg (JStr "host")); msimpl; done.
  - unfold echoFromHost. msimpl. done.
  - unfold signalingMessage. destruct msg as [m|]; msimpl; done.
  - unfold clientMKEvent. msimpl. done.
  - unfold commandFromHost. msimpl. done.
Qed.

(** ** The alarms *)

Lemma logoffAlarm_run sock s :
  logoffAlarm sock s =
  match logoffTimer (timersOf s sock) with
  | None => mkRes (Val tt) s []
  | Some _ =>
      let idle := idleTime_m (timersOf s sock) in
      let spent := <[sock := set_logoff None (timersOf s sock)]> (timers s) in
      if isHost (cD s) sock then
        if (size (userName (cD s)) =? 1)%nat || (180 <=? idle)%Z then
          mkRes (Val tt) (mkServer (removeUser sock (cD s)) spent)
            [SocketEmit sock "chat message" (DStr (disconnectNotice idle +:+ advice));
             SocketDisconnect sock]
        else
          mkRes (Val tt)
            (mkServer (cD s)
               (<[sock := mkTimers (Some 5%Z) None (idle + 5)%Z]> (timers s))) []
      else
        mkRes (Val tt) (mkServer (cD s) spent)
          [SocketEmit sock "chat message" (DStr (disconnectNotice idle));
           EmitTo (JStr sock) "disconnectByServer"
             (DDisconnectByServer (getv (userName (cD s)) (JStr sock)) "server")]
  end.
Proof.
  unfold logoffAlarm, timersOf, isHost. destruct s as [d tm]. msimpl.
  destruct (logoffTimer (default timers0 (tm !! sock))) eqn:Hl; msimpl; [|done].
  unfold logoffCallback. msimpl. rewrite !lookup_insert_eq.
  cbn [default from_option id idleTime_m].
  destruct (loose_eq (JStr sock) (gets (hostID d) (getv (room d) (JStr sock))));
    msimpl; [|by rewrite ?cD_eta].
  destruct ((size (userName d) =? 1)%nat ||
            (180 <=? idleTime_m (default timers0 (tm !! sock)))%Z); msimpl.
  - rewrite removeUserFromMaps_run. msimpl. done.
  - rewrite setTimer_run. unfold rearm, timersOf. msimpl.
    rewrite !lookup_insert_eq, !insert_insert_eq.
    cbn [default from_option id idleTime_m]. done.
Qed.

Lemma warningAlarm_cD sock s : cD (final (warningAlarm sock s)) = cD s.
Proof.
  unfold warningAlarm, warningCallback. destruct s as [d tm]. msimpl.
  destruct (warningTimer (default timers0 (tm !! sock))); msimpl; done.
Qed.

Lemma step_cD_quiet s sock e :
  isConnection e = false → cD_quiet sock (cD s) (cD (step s (sock, e))).
Proof.
  unfold step. cbn [fst snd]. destruct e; cbn [handle isConnection]; intros Hc;
    try discriminate Hc.
  - rewrite (proj1 (relay_final sock s)). apply cq_same.
  - rewrite (proj1 (proj2 (relay_final sock s))). apply cq_same.
  - rewrite (proj1 (proj2 (proj2 (relay_final sock s)))). apply cq_same.
  - rewrite (proj1 (proj2 (proj2 (proj2 (relay_final sock s))))). apply cq_same.
  - rewrite (proj2 (proj2 (proj2 (proj2 (relay_final sock s))))). apply cq_same.
  - apply roomJoin_cD_quiet.
  - rewrite disconnect_run. destruct (truthy _); cbn [final cD];
      [apply cq_remove | apply cq_same].
  - rewrite okDisconnectMe_run. cbn [final cD]. apply cq_remove.
  - rewrite warningAlarm_cD. apply cq_same.
  - rewrite logoffAlarm_run. destruct (logoffTimer _); [|apply cq_same].
    cbn zeta. destruct (isHost _ _); [|apply cq_same].
    destruct (_ || _); cbn [final cD]; [apply cq_remove | apply cq_same].
Qed.

Lemma step_cD_step s sock e : cD_step sock (cD s) (cD (step s (sock, e))).
Proof.
  destruct (isConnection e) eqn:Hc.
  - destruct e; try discriminate Hc. apply connection_cD_step.
  - apply cs_quiet. by apply step_cD_quiet.
Qed.

(** ** Room directory: one host per room *)

Lemma truthy_JStr h : h ≠ "" → truthy (JStr h) = true.
Proof.
  intros H. cbn [truthy]. destruct (String.eqb h "") eqn:E; [|done].
  by apply String.eqb_eq in E.
Qed.

Lemma cD_step_host sock d d' R h :
  cD_step sock d d' → hostID d !! R = Some h → h ≠ "" →
  hostID d' !! R = Some h ∨ (hostID d' !! R = None ∧ sock = h).
Proof.
  intros Hstep HR Hh.
  destruct Hstep as [d' Hq| |n user_name nick team Hn];
    [destruct Hq as [| |r Hr|r Hr]| |];
    cbn [hostID set_room set_hostID set_connectionIndex removeUser]; auto.
  - destruct (loose_eq _ _) eqn:Heq; [|auto].
    apply loose_eq_str in Heq. unfold gets in Heq.
    destruct (decide (ToString (getv (room d) (JStr sock)) = R)) as [<-|Hne].
    + right. rewrite HR in Heq. cbn in Heq. split; [apply lookup_delete_eq | congruence].
    + left. by rewrite lookup_delete_ne.
  - destruct (decide (ToString r = R)) as [<-|Hne].
    + unfold gets in Hr. rewrite HR in Hr. cbn [from_option] in Hr.
      rewrite truthy_JStr in Hr; done.
    + left. by rewrite lookup_insert_ne.
Qed.

(** C1. A room has one host slot, and while a connection [h] holds it no
    event gives it to another connection: after any event the slot still
    holds [h], or it was cleared by the removal of [h] itself.  A host-join
    of a room whose slot holds a live host ends normally with the single
    advisory "Sorry, there is already a host for room ..." sent to the
    attempter, and leaves the whole server state, maps and timers, as it
    was. *)
Theorem C1_one_host_second_host_refused s R h :
  hostID (cD s) !! R = Some h → h ≠ "" →
  (∀ sock e,
     hostID (cD (step s (sock, e))) !! R = Some h
     ∨ (hostID (cD (step s (sock, e))) !! R = None ∧ sock = h))
  ∧ (∀ sock m,
       loose_eq (setDefault (RoomJoin.hostOrClient m) (JStr "client")) (JStr "host") = true →
       ToString (setDefault (RoomJoin.roomName m) JNull) = R →
       roomJoin sock (Some m) s
       = mkRes (Val tt) s
           [alreadyHosted (cD s) sock (setDefault (RoomJoin.roomName m) JNull)]).
Proof.
  intros HR Hh. split.
  - intros sock e. eapply cD_step_host; [apply step_cD_step | done | done].
  - intros sock m Hrole Hname. unfold roomJoin, alreadyHosted.
    destruct s as [d tm]. cbn [cD] in HR. msimpl.
    apply loose_eq_str in Hrole. rewrite Hrole. msimpl.
    unfold gets. rewrite Hname, HR. cbn [from_option]. rewrite truthy_JStr by done.
    msimpl. done.
Qed.

Lemma C1_witness :
  let s := run server0
             [("a", Connection (normalAuth JUndefined JUndefined));
              ("a", RoomJoinEv (joinMsg "r" "host"));
              ("b", Connection (normalAuth JUndefined JUndefined))] in
  hostID (cD s) !! "r" = Some "a"
  ∧ roomJoin "b" (joinMsg "r" "host") s
    = mkRes (Val tt) s [alreadyHosted (cD s) "b" (JStr "r")].
Proof.
  cbn zeta.
  assert (H : hostID (cD (run server0
             [("a", Connection (normalAuth JUndefined JUndefined));
              ("a", RoomJoinEv (joinMsg "r" "host"));
              ("b", Connection (normalAuth JUndefined JUndefined))])) !! "r" = Some "a")
    by (vm_compute; reflexivity).
  split; [exact H|].
  exact (proj2 (C1_one_host_second_host_refused _ "r" "a" H ltac:(discriminate))
           "b" (RoomJoin.mk (JStr "r") None None (JStr "host")) eq_refl eq_refl).
Defined.

(** ** Identity registry: unique display names *)


Lemma registryInv_register d sock n auth :
  registryInv d → userName d !! sock = None →
  nameInUse (JStr n) (userName d) = false →
  registryInv (register sock n auth d).
Proof.
  intros [Hstr Hinv] Hfresh Hfree.
  rewrite nameInUse_false in Hfree.
  unfold register. split; cbn [userName ids].
  - intros c v. rewrite lookup_insert. case_decide; [intros [= <-]; eauto | apply Hstr].
  - intros c m. rewrite !lookup_insert. split.
    + case_decide as Hc.
      * intros [= <-]. subst. by rewrite decide_True.
      * intros Hm. rewrite decide_False; [by apply Hinv|].
        intros ->. by apply (Hfree c).
    + case_decide as Hm.
      * intros [= <-]. subst. by rewrite decide_True.
      * intros Hc. apply Hinv in Hc. rewrite decide_False; [done|].
        intros ->. congruence.
Qed.

Lemma registryInv_removeUser d sock :
  registryInv d → truthy (getv (userName d) (JStr sock)) = true →
  registryInv (removeUser sock d).
Proof.
  intros [Hstr Hinv] Ht. unfold getv in Ht. cbn [ToString] in Ht.
  destruct (userName d !! sock) as [v|] eqn:Hsock; [|done].
  destruct (Hstr _ _ Hsock) as [n ->]. cbn [default from_option id] in Ht.
  unfold removeUser, getv. cbn [ToString userName ids]. rewrite Hsock.
  cbn [default from_option id ToString]. split; cbn [userName ids].
  - intros c v Hc. apply lookup_delete_Some in Hc as [_ Hc]. eauto.
  - intros c m. rewrite !lookup_delete_Some. split.
    + intros [Hne Hc]. split; [|by apply Hinv].
      intros ->. apply Hinv in Hc, Hsock. congruence.
    + intros [Hne Hc]. split; [|by apply Hinv].
      intros ->. apply Hinv in Hc. congruence.
Qed.

Lemma registryInv_step s e :
  registryInv (cD s) → connEvent s e → registryInv (cD (step s e)).
Proof.
  intros Hinv He.
  destruct He as [sock nick team Hfresh|sock n nick team Hfresh Hfree|sock|sock e Hc Ht];
    [| | |destruct (step_cD_quiet s sock e Hc) as [| |r Hr|r Hr];
          [done | by apply registryInv_removeUser | done | done]];
    unfold step; cbn [fst snd handle].
  - destruct (connection_normal_run sock nick team s) as (n & Hn & _ & ->).
    apply firstFree_spec in Hn as (_ & Hfree & _).
    apply registryInv_register; [by destruct (cD s) | done | done].
  - destruct (connection_reconnect_run sock n nick team s) as (_ & ->).
    by apply registryInv_register.
  - rewrite disconnect_run. destruct (truthy _) eqn:Ht; cbn [final cD]; [|done].
    by apply registryInv_removeUser.
Qed.

Lemma registryInv_run s evs :
  registryInv (cD s) → connTrace s evs →
  ∀ k, registryInv (cD (run s (take k evs))).
Proof.
  intros Hinv Htr. induction Htr as [s|s e evs He Htr IH]; intros k.
  - by rewrite take_nil.
  - destruct k as [|k]; [done|]. cbn [take run foldl].
    apply IH. by apply registryInv_step.
Qed.

Lemma registryInv_init : registryInv cD0.
Proof.
  split; cbn [cD0 userName ids].
  - intros c v. by rewrite lookup_empty.
  - intros c n. by rewrite !lookup_empty.
Qed.





(** ** Re-connecting under a name that is taken *)

Lemma connection_reconnect_log sock name nick team s :
  log (connection sock (reconnectAuth (JStr name) nick team) s)
  = if isHost (cD s) sock then []
    else [EmitTo (JStr sock) "your name is" (DName (JStr name))].
Proof.
  unfold connection, reconnectAuth, isHost. destruct s as [d tm]. msimpl.
  destruct (truthy (setDefault nick JNull) && nameInUse (setDefault nick JNull) (nickName d));
    msimpl; destruct (loose_eq (JStr sock) _); msimpl;
    rewrite setTimer_run; msimpl; rewrite ?getv_insert; done.
Qed.

(** C3, as the server has it.  A re-connect that hints a name registered to
    another connection is accepted: the handler ends normally, the new
    socket is registered under the hinted name, the name-to-id entry is
    overwritten with the new socket, the id-to-name entries of all other
    sockets and the name counter stay as they were, and the new socket is
    told the name (unless it is recorded as the host of its room). *)
Theorem C3_reattach_takes_over_name s sock name nick team other :
  ids (cD s) !! name = Some other → other ≠ sock →
  let r := connection sock (reconnectAuth (JStr name) nick team) s in
  result r = Val tt
  ∧ userName (cD (final r)) !! sock = Some (JStr name)
  ∧ ids (cD (final r)) !! name = Some sock
  ∧ (∀ c, c ≠ sock → userName (cD (final r)) !! c = userName (cD s) !! c)
  ∧ nameIndex (cD (final r)) = nameIndex (cD s)
  ∧ log r = (if isHost (cD s) sock then []
             else [EmitTo (JStr sock) "your name is" (DName (JStr name))]).
Proof.
  intros Hother Hne r. subst r.
  destruct (connection_reconnect_run sock name nick team s) as (Hres & Hfin).
  rewrite Hfin, connection_reconnect_log. unfold register. cbn [userName ids nameIndex].
  repeat split; try done.
  - apply lookup_insert_eq.
  - apply lookup_insert_eq.
  - intros c Hc. by rewrite lookup_insert_ne.
Qed.

Lemma C3_witness :
  ids (cD C3_state) !! "u1" = Some "a"
  ∧ result (connection "b" (reconnectAuth (JStr "u1") JUndefined JUndefined) C3_state)
    = Val tt
  ∧ ids (cD (final (connection "b" (reconnectAuth (JStr "u1") JUndefined JUndefined)
                      C3_state))) !! "u1" = Some "b".
Proof.
  assert (H : ids (cD C3_state) !! "u1" = Some "a") by (vm_compute; reflexivity).
  pose proof (C3_reattach_takes_over_name C3_state "b" "u1" JUndefined JUndefined "a"
                H ltac:(discriminate)) as (H1 & _ & H3 & _).
  split; [exact H|]. split; [exact H1 | exact H3].
Defined.

(** The re-connect of the claim is not refused: it ends normally and the
    name-to-id entry of the first connection is overwritten. *)
Lemma C3_counterexample :
  ids (cD C3_state) !! "u1" = Some "a"
  ∧ ¬ reattachRefused C3_state "b" (reconnectAuth (JStr "u1") JUndefined JUndefined).
Proof.
  split; [vm_compute; reflexivity|].
  intros [Hres _]. apply Hres. vm_compute. reflexivity.
Qed.

(** ** Disconnecting *)


(** C4, on the server as it is.  A connection that gave no nickname and no
    team is stored with [null] for both; after its disconnect the socket id
    is still a key of [cD.nickName] and of [cD.teamName].  A connection that
    became the host of a second room is still recorded as the host of the
    first one after its disconnect. *)
Theorem C4_entries_left_after_disconnect :
  (let s := run server0
              [("a", Connection (normalAuth JUndefined JUndefined));
               ("a", Disconnect)] in
   userName (cD s) !! "a" = None
   ∧ nickName (cD s) !! "a" = Some JNull
   ∧ teamName (cD s) !! "a" = Some JNull
   ∧ ¬ absentFromMaps "a" (cD s))
  ∧ (let s := run server0
                [("a", Connection (normalAuth (JStr "Al") (JStr "red")));
                 ("a", RoomJoinEv (joinMsg "A" "host"));
                 ("a", RoomJoinEv (joinMsg "B" "host"));
                 ("a", Disconnect)] in
     userName (cD s) !! "a" = None
     ∧ hostID (cD s) !! "A" = Some "a"
     ∧ ¬ absentFromMaps "a" (cD s)).
Proof.
  split; cbn zeta.
  - split; [vm_compute; reflexivity|]. split; [vm_compute; reflexivity|].
    split; [vm_compute; reflexivity|].
    intros (_ & Hn & _). revert Hn. vm_compute. discriminate.
  - split; [vm_compute; reflexivity|]. split; [vm_compute; reflexivity|].
    intros (_ & _ & _ & _ & _ & Hh). apply (Hh "A"). vm_compute. reflexivity.
Qed.



(** ** The idle budget runs out *)

(** C6, as the server has it.  When the logoff alarm of a socket fires:
    - a socket that is not recorded as the host of its room is sent the
      disconnect notice and a [disconnectByServer] request carrying its
      name; the maps are left as they are and nothing is re-armed;
    - a socket that is the host is evicted (notice with advice,
      [removeUserFromMaps], [socket.disconnect()]) exactly when
      [cD.userName] has one entry or the idle budget has reached 180
      minutes;
    - otherwise the maps are left as they are, nothing is emitted, the idle
      budget grows by 5 minutes, the logoff alarm is re-armed for 5 minutes
      and no warning alarm is pending. *)
Theorem C6_logoff_alarm s sock t :
  logoffTimer (timersOf s sock) = Some t →
  let r := logoffAlarm sock s in
  let idle := idleTime_m (timersOf s sock) in
  let n_users := size (userName (cD s)) in
  result r = Val tt
  ∧ (isHost (cD s) sock = false →
       cD (final r) = cD s
       ∧ log r = [SocketEmit sock "chat message" (DStr (disconnectNotice idle));
                  EmitTo (JStr sock) "disconnectByServer"
                    (DDisconnectByServer (getv (userName (cD s)) (JStr sock)) "server")]
       ∧ timersOf (final r) sock = set_logoff None (timersOf s sock))
  ∧ (isHost (cD s) sock = true →
       (n_users = 1%nat ∨ (180 ≤ idle)%Z) →
       cD (final r) = removeUser sock (cD s)
       ∧ log r = [SocketEmit sock "chat message" (DStr (disconnectNotice idle +:+ advice));
                  SocketDisconnect sock])
  ∧ (isHost (cD s) sock = true →
       n_users ≠ 1%nat → (idle < 180)%Z →
       cD (final r) = cD s
       ∧ log r = []
       ∧ timersOf (final r) sock = mkTimers (Some 5%Z) None (idle + 5)%Z).
Proof.
  intros Ht r idle n_users. subst r idle n_users.
  rewrite logoffAlarm_run, Ht. cbn zeta.
  destruct (isHost (cD s) sock) eqn:Hhost;
    [destruct (Nat.eqb_spec (size (userName (cD s))) 1) as [Hn|Hn];
     destruct (Z.leb_spec 180 (idleTime_m (timersOf s sock))) as [Hi|Hi]|];
    cbn [orb result final log cD]; repeat split; intros; try done; try lia;
    try (match goal with H : _ ∨ _ |- _ => destruct H; first [done | lia] end);
    unfold timersOf at 1; cbn [timers]; rewrite lookup_insert_eq; done.
Qed.

Lemma C6_witness :
  logoffTimer (timersOf C6_state "h") = Some 40%Z
  ∧ cD (final (logoffAlarm "h" C6_state)) = cD C6_state
  ∧ log (logoffAlarm "h" C6_state) = []
  ∧ timersOf (final (logoffAlarm "h" C6_state)) "h" = mkTimers (Some 5%Z) None 45%Z.
Proof.
  assert (Ht : logoffTimer (timersOf C6_state "h") = Some 40%Z)
    by (vm_compute; reflexivity).
  assert (Hh : isHost (cD C6_state) "h" = true) by (vm_compute; reflexivity).
  assert (Hn : size (userName (cD C6_state)) ≠ 1%nat) by (vm_compute; discriminate).
  assert (Hi : (idleTime_m (timersOf C6_state "h") < 180)%Z)
    by (vm_compute; reflexivity).
  pose proof (C6_logoff_alarm C6_state "h" 40%Z Ht) as (_ & _ & _ & Hext).
  destruct (Hext Hh Hn Hi) as (H1 & H2 & H3).
  split; [exact Ht|]. split; [exact H1|]. split; [exact H2|].
  rewrite H3. vm_compute. reflexivity.
Defined.

(** A client that is not the host stays in every map when its logoff alarm
    fires: the server only asks it to leave. *)
Lemma C6_counterexample :
  isHost (cD C6_state) "c" = false
  ∧ logoffTimer (timersOf C6_state "c") = Some 40%Z
  ∧ cD (final (logoffAlarm "c" C6_state)) = cD C6_state
  ∧ userName (cD (final (logoffAlarm "c" C6_state))) !! "c" = Some (JStr "u2")
  ∧ room (cD (final (logoffAlarm "c" C6_state))) !! "c" = Some (JStr "r")
  ∧ ¬ absentFromMaps "c" (cD (final (logoffAlarm "c" C6_state))).
Proof.
  split; [vm_compute; reflexivity|]. split; [vm_compute; reflexivity|].
  split; [vm_compute; reflexivity|]. split; [vm_compute; reflexivity|].
  split; [vm_compute; reflexivity|].
  intros (Hu & _). revert Hu. vm_compute. discriminate.
Qed.

(** ** Minting names *)


Lemma cD_quiet_nameIndex sock d d' : cD_quiet sock d d' → nameIndex d' = nameIndex d.
Proof. by intros []. Qed.

Lemma cD_step_nameIndex sock d d' : cD_step sock d d' → (nameIndex d ≤ nameIndex d')%N.
Proof.
  intros [d'' Hq| |]; cbn [nameIndex set_connectionIndex]; [|lia|lia].
  by rewrite (cD_quiet_nameIndex _ _ _ Hq).
Qed.



(** ** Nicknames *)

Lemma pretty_N_go_nonempty x s : s ≠ "" → pretty_N_go x s ≠ "".
Proof.
  revert s. induction (N.lt_wf_0 x) as [x _ IH]; intros s Hs.
  destruct (decide (x = 0)%N) as [->|Hx].
  - by rewrite pretty_N_go_0.
  - rewrite pretty_N_go_step by lia. apply IH; [|done].
    apply N.div_lt; lia.
Qed.

Lemma pretty_N_nonempty (n : N) : pretty n ≠ "".
Proof.
  unfold pretty, pretty_N. case_decide as Hn; [done|].
  rewrite pretty_N_go_step by lia. by apply pretty_N_go_nonempty.
Qed.

Lemma append_nil_r (s : string) : s +:+ "" = s.
Proof.
  induction s as [|a s IH]; [done|].
  change (String a (s +:+ "") = String a s). by rewrite IH.
Qed.

Lemma append_suffix_ne (s t : string) : t ≠ "" → s +:+ t ≠ s.
Proof.
  intros Ht Heq. rewrite <- (append_nil_r s) in Heq at 2.
  by apply (inj (String.append s)) in Heq.
Qed.

Lemma cD_step_nick_other sock d d' a :
  cD_step sock d d' → sock ≠ a → nickName d' !! a = nickName d !! a.
Proof.
  intros Hstep Hne.
  destruct Hstep as [d' Hq| |n user_name nick team Hn];
    [destruct Hq as [| |r Hr|r Hr]| |];
    cbn [nickName set_room set_hostID set_connectionIndex removeUser]; try done.
  - destruct (truthy _); [by rewrite lookup_delete_ne | done].
  - by rewrite lookup_insert_ne.
Qed.

Lemma step_staysRegistered s sock e :
  staysRegistered e = true →
  nickName (cD (step s (sock, e))) = nickName (cD s).
Proof.
  unfold step. cbn [fst snd]. destruct e; cbn [handle staysRegistered]; intros He;
    try discriminate He.
  - by rewrite (proj1 (relay_final sock s)).
  - by rewrite (proj1 (proj2 (relay_final sock s))).
  - by rewrite (proj1 (proj2 (proj2 (relay_final sock s)))).
  - by rewrite (proj1 (proj2 (proj2 (proj2 (relay_final sock s))))).
  - by rewrite (proj2 (proj2 (proj2 (proj2 (relay_final sock s))))).
  - destruct (roomJoin_registry sock msg s) as [Hreg _].
    unfold registry in Hreg. congruence.
  - by rewrite warningAlarm_cD.
Qed.

Lemma run_others_frame a evs s :
  Forall (λ se : string * event, se.1 ≠ a ∨ staysRegistered se.2 = true) evs →
  nickName (cD (run s evs)) !! a = nickName (cD s) !! a
  ∧ (nameIndex (cD s) ≤ nameIndex (cD (run s evs)))%N.
Proof.
  intros Hall. revert s. induction Hall as [|[sock e] evs Hne _ IH]; intros s.
  - cbn [run foldl]. split; [done | lia].
  - change (run s ((sock, e) :: evs)) with (run (step s (sock, e)) evs).
    destruct (IH (step s (sock, e))) as [Hn Hi]. cbn [fst snd] in Hne.
    pose proof (step_cD_step s sock e) as Hstep. split.
    + rewrite Hn. destruct Hne as [Hne|Hne].
      * by eapply cD_step_nick_other.
      * by rewrite step_staysRegistered.
    + apply cD_step_nameIndex in Hstep. lia.
Qed.

Lemma connection_normal_nick sock nick team s :
  nick ≠ "" →
  let s' := step s (sock, Connection (normalAuth (JStr nick) team)) in
  (nameIndex (cD s) < nameIndex (cD s'))%N
  ∧ nickName (cD s') !! sock
    = Some (JStr (if nameInUse (JStr nick) (nickName (cD s))
                  then nick +:+ pretty (nameIndex (cD s')) else nick))
  ∧ (∀ c, c ≠ sock → nickName (cD s') !! c = nickName (cD s) !! c).
Proof.
  intros Hnick s'. subst s'. unfold step. cbn [fst snd handle].
  destruct (connection_normal_run sock (JStr nick) team s) as (n & Hn & _ & ->).
  apply firstFree_spec in Hn as (Hlt & _ & _).
  unfold register, storedNick, normalAuth.
  cbn [nameIndex nickName set_nameIndex Auth.nickName setDefault ToString].
  rewrite truthy_JStr by done. cbn [andb]. rewrite slice1_uname.
  split; [done|]. split.
  - rewrite lookup_insert_eq. by destruct (nameInUse _ _).
  - intros c Hc. by rewrite lookup_insert_ne.
Qed.

(** C8, as the server has it.  Let a socket [a] connect in normal mode asking
    for a non-empty nickname, and let a socket [b] connect later in normal
    mode asking for the same nickname; in between, the other sockets do
    anything and [a] does anything but connect again or leave (so [a] is
    still registered).  Then the two stored nicknames are
    distinct, the one of [a] is what was stored when [a] connected, and [b]
    is stored under the nickname followed by the digits of its new user
    number whenever the nickname is stored for some connection at that
    moment, in particular when [a] is stored under the nickname itself. *)
Theorem C8_normal_mode_nicknames_distinct s a b nick ta tb evs :
  a ≠ b → nick ≠ "" →
  Forall (λ se : string * event, se.1 ≠ a ∨ staysRegistered se.2 = true) evs →
  let s1 := step s (a, Connection (normalAuth (JStr nick) ta)) in
  let s2 := run s1 evs in
  let s3 := step s2 (b, Connection (normalAuth (JStr nick) tb)) in
  ∃ na nb,
    nickName (cD s1) !! a = Some (JStr na)
    ∧ nickName (cD s3) !! a = Some (JStr na)
    ∧ nickName (cD s3) !! b = Some (JStr nb)
    ∧ na ≠ nb
    ∧ (nameInUse (JStr nick) (nickName (cD s2)) = true →
       nb = nick +:+ pretty (nameIndex (cD s3)))
    ∧ (na = nick → nb = nick +:+ pretty (nameIndex (cD s3))).
Proof.
  intros Hab Hnick Hevs s1 s2 s3.
  destruct (connection_normal_nick a nick ta s Hnick) as (Hi1 & Ha1 & _).
  destruct (run_others_frame a evs s1 Hevs) as (Ha2 & Hi2).
  destruct (connection_normal_nick b nick tb s2 Hnick) as (Hi3 & Hb3 & Hother).
  fold s1 in Hi1, Ha1. fold s2 in Ha2, Hi2. fold s3 in Hi3, Hb3, Hother.
  rewrite <- (Hother a Hab) in Ha2. rewrite Ha1 in Ha2.
  eexists _, _. split; [exact Ha1|]. split; [exact Ha2|]. split; [exact Hb3|].
  assert (Hin : nameInUse (JStr nick) (nickName (cD s)) = false →
                nameInUse (JStr nick) (nickName (cD s2)) = true).
  { intros Hf. apply nameInUse_true. exists a.
    rewrite <- (Hother a Hab), Ha2. by rewrite Hf. }
  split; [|split].
  - destruct (nameInUse (JStr nick) (nickName (cD s))) eqn:Hu1;
      destruct (nameInUse (JStr nick) (nickName (cD s2))) eqn:Hu2.
    + intros Heq. apply (inj (String.append nick)), (inj pretty) in Heq. lia.
    + by apply append_suffix_ne, pretty_N_nonempty.
    + intros Heq. symmetry in Heq. revert Heq.
      by apply append_suffix_ne, pretty_N_nonempty.
    + by specialize (Hin eq_refl).
  - by intros ->.
  - intros Hna. destruct (nameInUse (JStr nick) (nickName (cD s))) eqn:Hu1.
    + by apply append_suffix_ne in Hna; [|apply pretty_N_nonempty].
    + by rewrite (Hin eq_refl).
Qed.

Lemma C8_witness :
  let s1 := step server0 ("a", Connection (normalAuth (JStr "Alice") JUndefined)) in
  let s2 := run s1 [("a", RoomJoinEv (joinMsg "r" "host"));
                    ("c", Connection (normalAuth (JStr "Bob") JUndefined))] in
  let s3 := step s2 ("b", Connection (normalAuth (JStr "Alice") JUndefined)) in
  ∃ na nb,
    nickName (cD s1) !! "a" = Some (JStr na)
    ∧ nickName (cD s3) !! "a" = Some (JStr na)
    ∧ nickName (cD s3) !! "b" = Some (JStr nb)
    ∧ na ≠ nb
    ∧ (nameInUse (JStr "Alice") (nickName (cD s2)) = true →
       nb = "Alice" +:+ pretty (nameIndex (cD s3)))
    ∧ (na = "Alice" → nb = "Alice" +:+ pretty (nameIndex (cD s3))).
Proof.
  apply (C8_normal_mode_nicknames_distinct server0 "a" "b" "Alice" JUndefined JUndefined
           [("a", RoomJoinEv (joinMsg "r" "host"));
            ("c", Connection (normalAuth (JStr "Bob") JUndefined))]).
  - discriminate.
  - discriminate.
  - apply Forall_cons. split; [right; reflexivity|].
    apply Forall_cons. split; [left; discriminate|]. apply Forall_nil_2.
Defined.

(** The second socket of a client that was given [Alice2] re-connects under
    the same user name and asks for [Alice] again: both of its sockets are
    registered, and both are stored as [Alice2]. *)
Lemma C8_counterexample :
  let s := run server0
             [("z", Connection (normalAuth (JStr "Alice") JUndefined));
              ("a", Connection (normalAuth (JStr "Alice") JUndefined));
              ("b", Connection (reconnectAuth (JStr "u2") (JStr "Alice") JUndefined))] in
  nickName (cD s) !! "a" = Some (JStr "Alice2")
  ∧ nickName (cD s) !! "b" = Some (JStr "Alice2")
  ∧ ¬ (nickName (cD s) !! "a" ≠ nickName (cD s) !! "b").
Proof.
  cbn zeta. split; [vm_compute; reflexivity|]. split; [vm_compute; reflexivity|].
  intros H. apply H. vm_compute. reflexivity.
Qed.

(** ** Disconnecting twice *)

Lemma removeUser_absent sock d :
  absentFromMaps sock d → removeUser sock d = set_ids (delete "undefined") d.
Proof.
  intros (Hu & Hn & Ht & Hr & _ & Hh). unfold removeUser, set_ids, getv, gets.
  cbn [ToString]. rewrite Hu, Hn, Ht, Hr. cbn [default from_option id truthy ToString].
  rewrite (delete_id (userName d)), (delete_id (room d)) by done.
  destruct (hostID d !! "undefined") as [h|] eqn:Hhost; cbn [from_option loose_eq].
  - destruct (String.eqb h sock) eqn:Heq; [|done].
    apply String.eqb_eq in Heq. subst. by destruct (Hh "undefined" Hhost).
  - done.
Qed.


(** The unguarded path: [removeUserFromMaps] on a socket that occurs in no
    map deletes the entry of [cD.id] under the key ["undefined"], and nothing
    else. *)
Lemma removeUserFromMaps_absent sock s :
  absentFromMaps sock (cD s) →
  removeUserFromMaps sock s
  = mkRes (Val tt) (with_cD (set_ids (delete "undefined")) s) [].
Proof.
  intros Habs. rewrite removeUserFromMaps_run. by rewrite removeUser_absent.
Qed.

Lemma removeUserFromMaps_absent_noop sock s :
  absentFromMaps sock (cD s) → ids (cD s) !! "undefined" = None →
  removeUserFromMaps sock s = mkRes (Val tt) s [].
Proof.
  intros Habs Hid. rewrite removeUserFromMaps_absent by done.
  unfold with_cD, set_ids. rewrite delete_id by done. by destruct s as [[] ?].
Qed.


(** ** Relay events *)

(** C10. The handlers of [echo-from-Client-to-Server],
    [echo-from-Host-to-Server], [signaling message], [client-mK-event] and
    [command-from-host-to-all-clients] end in the server state they started
    in, for every sender, every state and every payload (a payload of
    [signaling message] that is [null] or [undefined] aborts the handler, in
    the same state): the six maps, the two counters and the timers are as
    before. *)
Theorem C10_relay_events_change_nothing s sock :
  (∀ msg, final (handle sock (EchoFromClient msg) s) = s)
  ∧ (∀ msg, final (handle sock (EchoFromHost msg) s) = s)
  ∧ (∀ msg, final (handle sock (SignalingMessage msg) s) = s)
  ∧ (∀ msg, final (handle sock (ClientMKEvent msg) s) = s)
  ∧ (∀ msg, final (handle sock (CommandFromHost msg) s) = s).
Proof. cbn [handle]. apply relay_final. Qed.

(** ** The revision of 2021 *)

(** A second host of a hosted room is refused and nothing changes, as in
    the later revision. *)
Lemma Rev2021_second_host_refused s R h sock m :
  hostID (cD s) !! R = Some h → h ≠ "" →
  loose_eq (setDefault (RoomJoin.hostOrClient m) (JStr "client")) (JStr "host") = true →
  ToString (setDefault (RoomJoin.roomName m) JNull) = R →
  Rev2021.roomJoin sock (Some m) s
  = mkRes (Val tt) s
      [EmitTo (JStr sock) "room-joining-message"
         (DStr ("Sorry, there is already a host for room " +:+ R +:+ "."))].
Proof.
  intros HR Hh Hrole Hname. unfold Rev2021.roomJoin.
  destruct s as [d tm]. cbn [cD] in HR. msimpl.
  apply loose_eq_str in Hrole. rewrite Hrole. msimpl.
  unfold gets. rewrite Hname, HR. cbn [from_option]. rewrite truthy_JStr by done.
  msimpl. done.
Qed.

(** The re-connect under a name in use, the entries left by a disconnect:
    a connection without a nickname leaves nothing (no nickname entry was
    made for it), and the host of two rooms leaves the slot of the first. *)
Lemma Rev2021_registry_examples :
  ¬ namesDistinct
      (cD (Rev2021.run server0
             [("a", Rev2021.Connection (normalAuth JUndefined JUndefined));
              ("b", Rev2021.Connection (reconnectAuth (JStr "u1") JUndefined JUndefined))]))
  ∧ cD (Rev2021.run server0
          [("a", Rev2021.Connection (normalAuth JUndefined JUndefined));
           ("a", Rev2021.Disconnect)])
    = mkData 1 1 ∅ ∅ ∅ ∅ ∅ ∅
  ∧ hostID (cD (Rev2021.run server0
                  [("a", Rev2021.Connection (normalAuth (JStr "Al") JUndefined));
                   ("a", Rev2021.RoomJoinEv (joinMsg "A" "host"));
                   ("a", Rev2021.RoomJoinEv (joinMsg "B" "host"));
                   ("a", Rev2021.Disconnect)])) !! "A" = Some "a".
Proof.
  split; [|split; vm_compute; reflexivity].
  intros H. assert ("a" = "b") as Heq; [|discriminate Heq].
  apply (H "a" "b" (JStr "u1")); vm_compute; reflexivity.
Qed.


(** * More of the server *)

(** ** Joining a room *)



(** X2. A client that asks for a room with a recorded host joins it: the
    room is recorded for the socket (replacing any room it had, of which
    nobody is told) and no other map changes; the client is told the room
    and its label, and the host of the room receives [new-game-client] with
    the client's name, nickname and team, and a chat line. *)
Theorem X2_client_join_hosted_room s sock m :
  loose_eq (setDefault (RoomJoin.hostOrClient m) (JStr "client")) (JStr "client") = true →
  truthy (gets (hostID (cD s)) (setDefault (RoomJoin.roomName m) JNull)) = true →
  let R := setDefault (RoomJoin.roomName m) JNull in
  let host := gets (hostID (cD s)) R in
  let label := ToString (setDisplayName (cD s) sock "prens") in
  let name := getv (userName (cD s)) (JStr sock) in
  roomJoin sock (Some m) s
  = mkRes (Val tt) (mkServer (set_room (<[sock := R]>) (cD s)) (timers s))
      [SocketJoin sock R;
       EmitTo (JStr sock) "room-joining-message"
         (DRoomJoining
            ("You have joined room " +:+ ToString R +:+
             " and your client name is " +:+ label +:+ ".") name None);
       EmitTo host "new-game-client"
         (DNewGameClient name
            (default "false" (RoomJoin.requestStream m))
            (default "null" (RoomJoin.player m))
            (getv (nickName (cD s)) (JStr sock))
            (getv (teamName (cD s)) (JStr sock)));
       EmitTo host "chat message"
         (DStr (label +:+ " is a new client in room " +:+ ToString R +:+ "."))].
Proof.
  intros Hrole Hhost R host label name. subst R host label name.
  unfold roomJoin. destruct s as [d tm]. cbn [cD timers] in *.
  msimpl. rewrite Hrole. msimpl. rewrite Hhost. msimpl. rewrite getv_insert. done.
Qed.

Lemma X2_witness :
  cD (final (roomJoin "a" (joinMsg "r" "client") hostedRoom))
  = set_room (<["a" := JStr "r"]>) (cD hostedRoom).
Proof.
  pose proof (X2_client_join_hosted_room hostedRoom "a"
                (RoomJoin.mk (JStr "r") None None (JStr "client")) eq_refl eq_refl) as H.
  cbn zeta in H. unfold joinMsg. rewrite H. reflexivity.
Defined.



(** X4. A [roomJoin] whose payload is [null] or [undefined] aborts with a
    [TypeError] before anything is read or written; one whose role is
    neither [client] nor [host] ends normally and does nothing at all, not
    even a reply. *)
Theorem X4_roomJoin_bad_payload s sock :
  roomJoin sock None s = mkRes TypeError s []
  ∧ (∀ m,
       loose_eq (setDefault (RoomJoin.hostOrClient m) (JStr "client")) (JStr "client") = false →
       loose_eq (setDefault (RoomJoin.hostOrClient m) (JStr "client")) (JStr "host") = false →
       roomJoin sock (Some m) s = mkRes (Val tt) s []).
Proof.
  split; [done|]. intros m Hc Hh. unfold roomJoin. destruct s as [d tm].
  msimpl. rewrite Hc, Hh. msimpl. done.
Qed.

Lemma X4_witness :
  roomJoin "a" (Some (RoomJoin.mk (JStr "r") None None (JStr "Host"))) lobby
  = mkRes (Val tt) lobby [].
Proof.
  exact (proj2 (X4_roomJoin_bad_payload lobby "a")
           (RoomJoin.mk (JStr "r") None None (JStr "Host")) eq_refl eq_refl).
Defined.

(** ** Leaving *)

Lemma removeUser_others sock d c :
  c ≠ sock →
  userName (removeUser sock d) !! c = userName d !! c
  ∧ nickName (removeUser sock d) !! c = nickName d !! c
  ∧ teamName (removeUser sock d) !! c = teamName d !! c
  ∧ room (removeUser sock d) !! c = room d !! c.
Proof.
  intros Hc. unfold removeUser. cbn [userName nickName teamName room].
  repeat split; repeat (destruct (truthy _)); by rewrite ?lookup_delete_ne.
Qed.

Lemma removeUser_hostID_other sock d R c :
  c ≠ sock → hostID d !! R = Some c → hostID (removeUser sock d) !! R = Some c.
Proof.
  intros Hc HR. unfold removeUser. cbn [hostID].
  destruct (loose_eq _ _) eqn:Heq; [|done].
  apply loose_eq_str in Heq. unfold gets in Heq.
  rewrite lookup_delete_ne; [done|]. intros <-. rewrite HR in Heq.
  cbn [from_option] in Heq. congruence.
Qed.

Lemma hostedRoom_trace :
  connTrace server0
    [("h", Connection (normalAuth JUndefined JUndefined));
     ("h", RoomJoinEv (joinMsg "r" "host"));
     ("c", Connection (normalAuth (JStr "Al") (JStr "red")));
     ("c", RoomJoinEv (joinMsg "r" "client"))].
Proof.
  repeat (first [ apply ct_nil | apply ct_cons ]);
    first [ apply ce_normal; vm_compute; reflexivity
          | apply ce_registered; vm_compute; reflexivity ].
Defined.

Lemma hostedRoom_registryInv : registryInv (cD hostedRoom).
Proof.
  exact (registryInv_run server0 _ registryInv_init hostedRoom_trace 4).
Defined.



(** X6. [removeUserFromMaps] ends normally, emits nothing and never touches
    what belongs to another socket: the name, nickname, team and room of
    every other socket, every host slot held by another socket, the two
    counters and the timers are as before; and when the name maps are
    inverse to each other and the socket removed is registered, every other
    socket is still found under its name. *)
Theorem X6_removal_leaves_others s sock :
  let r := removeUserFromMaps sock s in
  result r = Val tt ∧ log r = []
  ∧ (∀ c, c ≠ sock →
       userName (cD (final r)) !! c = userName (cD s) !! c
       ∧ nickName (cD (final r)) !! c = nickName (cD s) !! c
       ∧ teamName (cD (final r)) !! c = teamName (cD s) !! c
       ∧ room (cD (final r)) !! c = room (cD s) !! c)
  ∧ (∀ R c, c ≠ sock → hostID (cD s) !! R = Some c → hostID (cD (final r)) !! R = Some c)
  ∧ connectionIndex (cD (final r)) = connectionIndex (cD s)
  ∧ nameIndex (cD (final r)) = nameIndex (cD s)
  ∧ timers (final r) = timers s
  ∧ (registryInv (cD s) → is_Some (userName (cD s) !! sock) →
     ∀ c n, c ≠ sock → userName (cD s) !! c = Some (JStr n) →
            ids (cD (final r)) !! n = Some c).
Proof.
  intros r. subst r. rewrite removeUserFromMaps_run. cbn [result final log cD timers].
  split; [done|]. split; [done|].
  split; [intros c Hc; by apply removeUser_others|].
  split; [intros R c Hc HR; by apply removeUser_hostID_other|].
  split; [done|]. split; [done|]. split; [done|].
  intros [Hstr Hinv] [v Hv] c n Hc Hn.
  destruct (Hstr _ _ Hv) as [n' ->].
  unfold removeUser, getv. cbn [ids ToString]. rewrite Hv. cbn [default from_option id ToString].
  rewrite lookup_delete_ne; [by apply Hinv|].
  intros <-. apply Hinv in Hv, Hn. congruence.
Qed.

Lemma X6_witness :
  ids (cD (final (removeUserFromMaps "c" hostedRoom))) !! "u1" = Some "h"
  ∧ hostID (cD (final (removeUserFromMaps "c" hostedRoom))) !! "r" = Some "h".
Proof.
  pose proof (X6_removal_leaves_others hostedRoom "c") as (_ & _ & _ & Hh & _ & _ & _ & Hi).
  split.
  - apply (Hi hostedRoom_registryInv); [vm_compute; eauto | discriminate
                                        | vm_compute; reflexivity].
  - apply Hh; [discriminate | vm_compute; reflexivity].
Defined.

(** X7. A disconnect leaves no trace of a socket that is registered under a
    truthy name, whose nickname and team entries are truthy or missing, and
    that is recorded as the host of no room but the one it is in, when the
    name maps are inverse to each other: afterwards the socket is a key or
    a value of none of the six maps. *)
Theorem X7_disconnect_removes_everything s sock :
  registryInv (cD s) →
  truthy (getv (userName (cD s)) (JStr sock)) = true →
  (nickName (cD s) !! sock = None ∨ truthy (getv (nickName (cD s)) (JStr sock)) = true) →
  (teamName (cD s) !! sock = None ∨ truthy (getv (teamName (cD s)) (JStr sock)) = true) →
  (∀ R, hostID (cD s) !! R = Some sock → ToString (getv (room (cD s)) (JStr sock)) = R) →
  absentFromMaps sock (cD (final (disconnect sock s))).
Proof.
  intros [Hstr Hinv] Hname Hnick Hteam Hhost.
  rewrite disconnect_run, Hname. cbn [final cD].
  unfold absentFromMaps, removeUser. cbn [userName nickName teamName room ids hostID].
  split; [apply lookup_delete_eq|].
  split.
  { destruct Hnick as [Hn|Hn].
    - unfold getv. cbn [ToString]. rewrite Hn. cbn. done.
    - rewrite Hn. apply lookup_delete_eq. }
  split.
  { destruct Hteam as [Hn|Hn].
    - unfold getv. cbn [ToString]. rewrite Hn. cbn. done.
    - rewrite Hn. apply lookup_delete_eq. }
  split; [apply lookup_delete_eq|].
  split.
  - intros n Hn. apply lookup_delete_Some in Hn as [Hne Hn].
    apply Hinv in Hn. apply Hne. unfold getv. cbn [ToString]. by rewrite Hn.
  - intros R HR. destruct (loose_eq _ _) eqn:Heq.
    + apply lookup_delete_Some in HR as [Hne HR]. by apply Hne, Hhost.
    + pose proof (Hhost _ HR) as <-.
      unfold gets in Heq. rewrite HR in Heq. cbn [from_option loose_eq] in Heq.
      by rewrite String.eqb_refl in Heq.
Qed.

Lemma X7_witness : absentFromMaps "c" (cD (final (disconnect "c" hostedRoom))).
Proof.
  apply X7_disconnect_removes_everything.
  - exact hostedRoom_registryInv.
  - vm_compute. reflexivity.
  - right. vm_compute. reflexivity.
  - right. vm_compute. reflexivity.
  - intros R HR. exfalso. revert HR.
    assert (hostID (cD hostedRoom) = {["r" := "h"]}) as -> by (vm_compute; reflexivity).
    intros HR. apply lookup_singleton_Some in HR as [_ HR]. discriminate HR.
Defined.

(** ** The rest of the listeners, and what they leave alone *)

Lemma disconnectClientsInOneRoom_run socks roomName s :
  disconnectClientsInOneRoom socks roomName s
  = mkRes (Val tt) s (dcirNotice (cD s) <$> dcirTargets (cD s) roomName socks).
Proof.
  unfold disconnectClientsInOneRoom, dcirTargets.
  match goal with |- forEach _ ?b _ = _ => set (body := b) end.
  induction socks as [|k socks IH]; [done|].
  cbn [forEach List.filter]. unfold mbind at 1, M_bind at 1.
  assert (body k s
          = mkRes (Val tt) s
              (if loose_eq (getv (room (cD s)) (JStr k)) roomName
                  && negb (loose_eq (JStr k) (gets (hostID (cD s)) roomName))
               then [dcirNotice (cD s) k] else [])) as ->.
  { subst body. destruct s as [d tm]. msimpl.
    destruct (loose_eq (getv (room d) (JStr k)) roomName); msimpl; [|done].
    destruct (loose_eq (JStr k) (gets (hostID d) roomName)); msimpl; done. }
  rewrite IH.
  destruct (loose_eq (getv (room (cD s)) (JStr k)) roomName
            && negb (loose_eq (JStr k) (gets (hostID (cD s)) roomName))); done.
Qed.

Lemma liftM_final {A} (m : M A) s : xfinal (liftM m s) = final (m s).
Proof. unfold liftM. by destruct (m s). Qed.

Lemma liftM_log {A} (m : M A) s : xlog (liftM m s) = Act <$> log (m s).
Proof. unfold liftM. by destruct (m s). Qed.

Lemma liftM_result {A} (m : M A) s : xresult (liftM m s) = result (m s).
Proof. unfold liftM. by destruct (m s). Qed.

(** [chat message]: the timers of the sender are re-armed, [cD] is read. *)
Lemma chatMessage_final env sock msg s :
  result (chatMessage env sock msg s) = Val tt
  ∧ final (chatMessage env sock msg s)
    = mkServer (cD s) (<[sock := mkTimers (Some 40%Z) (Some 40%Z) 40%Z]> (timers s)).
Proof.
  unfold chatMessage. destruct s as [d tm]. msimpl. rewrite !setTimer_run.
  unfold rearm. msimpl.
  destruct (loose_eq msg (JStr "dcir")); msimpl.
  { destruct (loose_eq (JStr sock) _); msimpl; [|done].
    rewrite disconnectClientsInOneRoom_run. msimpl. done. }
  destruct (loose_eq msg (JStr "dac")); msimpl; [done|].
  destruct (loose_eq msg (JStr "rr")); msimpl; [|done].
  destruct (loose_eq (JStr sock) _); msimpl; done.
Qed.

Lemma readOnly_final sock s :
  (∀ msg, xfinal (chatMessageButNotMe sock msg s) = s)
  ∧ (∀ socks msg, xfinal (controlMessage socks sock msg s) = s)
  ∧ (∀ msg, final (clientDisconnectByHost sock msg s) = s)
  ∧ (∀ msg, final (shutDownP2P sock msg s) = s).
Proof.
  destruct s as [d tm]. split; [|split; [|split]].
  - intros msg. unfold chatMessageButNotMe. xmsimpl. done.
  - intros socks [m|]; unfold controlMessage; xmsimpl; [|done].
    destruct (ctl_data m) as [data|]; xmsimpl; [|done].
    destruct (loose_eq (ctl_to m) (JStr "host")); xmsimpl; [done|].
    destruct (loose_eq (ctl_to m) (JStr "room")); xmsimpl; [done|].
    destruct (loose_eq (ctl_to m) (JStr "roomNoSender")); xmsimpl; done.
  - intros msg. unfold clientDisconnectByHost. msimpl. done.
  - intros msg. unfold shutDownP2P. msimpl. done.
Qed.

Lemma nameReport_final socks nm target s :
  final (nameReport socks nm target s) = s ∧ log (nameReport socks nm target s) = [].
Proof.
  unfold nameReport. destruct s as [d tm]. destruct nm as [nm|]; msimpl; [|done].
  destruct (names_nickName nm); msimpl; done.
Qed.

Lemma nameReportListener_final socks sock nm s :
  xfinal (nameReportListener socks sock nm s) = s.
Proof.
  unfold nameReportListener. unfold mbind, MX_bind, liftM, xemit.
  destruct (nameReport_final socks nm sock s) as [Hf _].
  destruct (nameReport socks nm sock s) as [[report| |] s' l]; cbn [final] in Hf;
    by subst s'.
Qed.

(** Every listener changes [cD] in one of the ways of [cD_step]. *)
Lemma xstep_cD_step s sock e : cD_step sock (cD s) (cD (xstep s (sock, e))).
Proof.
  unfold xstep. cbn [fst snd]. destruct e as [e|env msg|msg|socks msg|msg|msg|socks nm];
    cbn [xhandle]; rewrite ?liftM_final.
  - apply step_cD_step.
  - rewrite (proj2 (chatMessage_final env sock msg s)). apply cs_quiet, cq_same.
  - rewrite (proj1 (readOnly_final sock s)). apply cs_quiet, cq_same.
  - rewrite (proj1 (proj2 (readOnly_final sock s))). apply cs_quiet, cq_same.
  - rewrite (proj1 (proj2 (proj2 (readOnly_final sock s)))). apply cs_quiet, cq_same.
  - rewrite (proj2 (proj2 (proj2 (readOnly_final sock s)))). apply cs_quiet, cq_same.
  - rewrite nameReportListener_final. apply cs_quiet, cq_same.
Qed.

Lemma xstep_cD_quiet s sock e :
  isConnectionX e = false → cD_quiet sock (cD s) (cD (xstep s (sock, e))).
Proof.
  unfold xstep. cbn [fst snd]. destruct e as [e|env msg|msg|socks msg|msg|msg|socks nm];
    cbn [xhandle isConnectionX]; rewrite ?liftM_final; intros He.
  - apply step_cD_quiet. by destruct e.
  - rewrite (proj2 (chatMessage_final env sock msg s)). apply cq_same.
  - rewrite (proj1 (readOnly_final sock s)). apply cq_same.
  - rewrite (proj1 (proj2 (readOnly_final sock s))). apply cq_same.
  - rewrite (proj1 (proj2 (proj2 (readOnly_final sock s)))). apply cq_same.
  - rewrite (proj2 (proj2 (proj2 (readOnly_final sock s)))). apply cq_same.
  - rewrite nameReportListener_final. apply cq_same.
Qed.

(** ** Counters *)

Lemma connection_connectionIndex sock auth s :
  connectionIndex (cD (final (connection sock auth s)))
  = (connectionIndex (cD s) + 1)%N.
Proof.
  unfold connection. destruct s as [d tm]. msimpl.
  destruct (loose_eq (Auth.mode auth) (JStr "normal")) eqn:Hmode; msimpl.
  - rewrite nameLoop_run. msimpl.
    destruct (firstFree_terminates (S (size (userName d))) (nameIndex d)
                (userName d)) as [n Hn]; [lia|].
    rewrite Hn. msimpl.
    destruct (truthy (setDefault (Auth.nickName auth) JNull) &&
              nameInUse (setDefault (Auth.nickName auth) JNull) (nickName d));
      msimpl; mcase; rewrite setTimer_run; msimpl; done.
  - destruct (loose_eq (Auth.mode auth) (JStr "re-connect")); msimpl;
      destruct (truthy (setDefault (Auth.nickName auth) JNull) &&
                nameInUse (setDefault (Auth.nickName auth) JNull) (nickName d));
      msimpl;
      try (destruct (Auth.currentName auth) eqn:Hname; msimpl);
      try done;
      mcase; rewrite setTimer_run; msimpl; done.
Qed.

Lemma cD_quiet_connectionIndex sock d d' :
  cD_quiet sock d d' → connectionIndex d' = connectionIndex d.
Proof. by intros []. Qed.

Lemma xrun_cons s e evs : xrun s (e :: evs) = xrun (xstep s e) evs.
Proof. reflexivity. Qed.

Lemma xrun_app s evs evs' : xrun s (evs ++ evs') = xrun (xrun s evs) evs'.
Proof. unfold xrun. apply foldl_app. Qed.

(** X8. [cD.connectionIndex] counts the connection events: every run of the
    connection handler adds one, also one that aborts, and no other listener
    or alarm changes it. *)
Theorem X8_connectionIndex_counts_connections s evs :
  connectionIndex (cD (xrun s evs))
  = (connectionIndex (cD s) + N.of_nat (connectionCount evs))%N.
Proof.
  revert s. induction evs as [|[sock e] evs IH]; intros s.
  - cbn. lia.
  - rewrite xrun_cons, IH. unfold connectionCount. cbn [List.filter snd].
    destruct (isConnectionX e) eqn:He.
    + destruct e as [[auth| | | | | | | | | |]| | | | | |]; try discriminate He.
      unfold xstep. cbn [fst snd xhandle]. rewrite liftM_final. cbn [handle].
      rewrite connection_connectionIndex. cbn [length]. lia.
    + rewrite (cD_quiet_connectionIndex _ _ _ (xstep_cD_quiet s sock e He)). lia.
Qed.

Lemma xstep_nameIndex s sock e :
  (nameIndex (cD s) ≤ nameIndex (cD (xstep s (sock, e))))%N.
Proof. eapply cD_step_nameIndex, xstep_cD_step. Qed.

Lemma xrun_nameIndex s evs :
  (nameIndex (cD s) ≤ nameIndex (cD (xrun s evs)))%N.
Proof.
  revert s. induction evs as [|[sock e] evs IH]; intros s; [cbn; lia|].
  rewrite xrun_cons. pose proof (xstep_nameIndex s sock e). specialize (IH (xstep s (sock, e))).
  lia.
Qed.

(** X9. A user name that was minted is never minted again: of two
    connections in normal mode the later one gets a higher number,
    whatever happens in between, also when the first has left. *)
Theorem X9_minted_names_never_reused s a b na nb ta tb evs :
  let s1 := xstep s (a, Ev (Connection (normalAuth na ta))) in
  let s2 := xrun s1 evs in
  let s3 := xstep s2 (b, Ev (Connection (normalAuth nb tb))) in
  ∃ n1 n2,
    userName (cD s1) !! a = Some (JStr (uname n1))
    ∧ userName (cD s3) !! b = Some (JStr (uname n2))
    ∧ (n1 < n2)%N
    ∧ uname n1 ≠ uname n2.
Proof.
  assert (Hx : ∀ s sock auth,
             xstep s (sock, Ev (Connection auth)) = final (connection sock auth s)).
  { intros. unfold xstep. cbn [fst snd xhandle handle]. apply liftM_final. }
  intros s1 s2 s3. subst s3 s2 s1. rewrite !Hx.
  destruct (connection_normal_run a na ta s) as (n1 & Hn1 & _ & Hfin1).
  set (s1 := final (connection a (normalAuth na ta) s)) in *.
  set (s2 := xrun s1 evs).
  destruct (connection_normal_run b nb tb s2) as (n2 & Hn2 & _ & Hfin2).
  apply firstFree_spec in Hn2 as (Hlt2 & _ & _).
  pose proof (xrun_nameIndex s1 evs) as Hmono. fold s2 in Hmono.
  assert (nameIndex (cD s1) = n1) as Hidx1 by (rewrite Hfin1; reflexivity).
  exists n1, n2. rewrite Hfin1, Hfin2. unfold register. cbn [userName].
  split; [apply lookup_insert_eq|]. split; [apply lookup_insert_eq|].
  split; [lia|]. intros Heq. apply uname_inj in Heq. lia.
Qed.

(** ** Connections that do not mint a name *)

(** X10. A connection that brings a nickname already in use and no name to
    take the suffix from (a mode other than [normal] with no hinted name
    that is a string) stops with a TypeError on [user_name.slice(1)]: the
    connection counter has been advanced, nothing is registered, nothing is
    sent and no timer is armed. *)
Theorem X10_connection_aborts_without_name s sock auth :
  loose_eq (Auth.mode auth) (JStr "normal") = false →
  (loose_eq (Auth.mode auth) (JStr "re-connect") = false
   ∨ ∀ u, Auth.currentName auth ≠ JStr u) →
  truthy (setDefault (Auth.nickName auth) JNull) = true →
  nameInUse (setDefault (Auth.nickName auth) JNull) (nickName (cD s)) = true →
  connection sock auth s
  = mkRes TypeError (with_cD (set_connectionIndex (λ n, n + 1)%N) s) [].
Proof.
  intros Hmode Hname Hnick Huse. unfold connection. destruct s as [d tm].
  cbn [cD] in Huse. msimpl. rewrite Hmode. msimpl.
  destruct (loose_eq (Auth.mode auth) (JStr "re-connect")) eqn:Hre; msimpl;
    rewrite Hnick, Huse; msimpl; [|done].
  destruct Hname as [|Hname]; [done|].
  destruct (Auth.currentName auth) as [| |u]; msimpl; try done.
  by destruct (Hname u).
Qed.

Lemma X10_witness :
  connection "b" (reconnectAuth JUndefined (JStr "Al") JUndefined) hostedRoom
  = mkRes TypeError (with_cD (set_connectionIndex (λ n, n + 1)%N) hostedRoom) [].
Proof.
  apply X10_connection_aborts_without_name.
  - reflexivity.
  - right. intros u. discriminate.
  - reflexivity.
  - vm_compute. reflexivity.
Defined.

(** X11. A connection whose mode is neither [normal] nor [re-connect], and
    whose nickname does not clash, is registered without a name: its name is
    [undefined], the name-to-id map gets the key [undefined], no name is
    minted, and its [disconnect] later removes nothing and tells nobody. *)
Theorem X11_connection_of_unknown_mode s sock auth :
  loose_eq (Auth.mode auth) (JStr "normal") = false →
  loose_eq (Auth.mode auth) (JStr "re-connect") = false →
  truthy (setDefault (Auth.nickName auth) JNull)
    && nameInUse (setDefault (Auth.nickName auth) JNull) (nickName (cD s)) = false →
  let r := connection sock auth s in
  result r = Val tt
  ∧ userName (cD (final r)) !! sock = Some JUndefined
  ∧ nickName (cD (final r)) !! sock = Some (setDefault (Auth.nickName auth) JNull)
  ∧ ids (cD (final r)) !! "undefined" = Some sock
  ∧ nameIndex (cD (final r)) = nameIndex (cD s)
  ∧ log r = (if isHost (cD s) sock then []
             else [EmitTo (JStr sock) "your name is" (DName JUndefined)])
  ∧ disconnect sock (final r) = mkRes (Val tt) (final r) [].
Proof.
  intros Hmode Hre Hnick r. subst r. rewrite disconnect_run.
  unfold connection, isHost. destruct s as [d tm].
  cbn [cD] in Hnick. msimpl. rewrite Hmode. msimpl. rewrite Hre. msimpl.
  rewrite Hnick. msimpl.
  destruct (loose_eq (JStr sock) (gets (hostID d) (getv (room d) (JStr sock))));
    msimpl; rewrite setTimer_run; msimpl; rewrite ?getv_insert;
    (repeat split; try done; try apply lookup_insert_eq;
     unfold getv; cbn [ToString]; rewrite ?lookup_insert_eq; done).
Qed.

Lemma X11_witness :
  let r := connection "x" (Auth.mk JUndefined JUndefined JUndefined JUndefined) lobby in
  result r = Val tt
  ∧ userName (cD (final r)) !! "x" = Some JUndefined
  ∧ ids (cD (final r)) !! "undefined" = Some "x"
  ∧ disconnect "x" (final r) = mkRes (Val tt) (final r) [].
Proof.
  destruct (X11_connection_of_unknown_mode lobby "x"
              (Auth.mk JUndefined JUndefined JUndefined JUndefined))
    as (H1 & H2 & _ & H4 & _ & _ & H7); try reflexivity.
  cbv zeta. auto.
Defined.


(** ** The idle budget of a host *)

Lemma logoffAlarm_extends s h t :
  isHost (cD s) h = true →
  logoffTimer (timersOf s h) = Some t →
  size (userName (cD s)) ≠ 1%nat →
  (idleTime_m (timersOf s h) < 180)%Z →
  logoffAlarm h s
  = mkRes (Val tt)
      (mkServer (cD s)
         (<[h := mkTimers (Some 5%Z) None (idleTime_m (timersOf s h) + 5)%Z]> (timers s)))
      [].
Proof.
  intros Hh Ht Hn Hi. rewrite logoffAlarm_run, Ht. cbv zeta. rewrite Hh.
  destruct (Nat.eqb_spec (size (userName (cD s))) 1) as [|_]; [done|].
  destruct (Z.leb_spec 180 (idleTime_m (timersOf s h))) as [|_]; [lia|].
  reflexivity.
Qed.

(** X13. The idle budget of a host.  While other users are registered, each
    logoff alarm of a host whose budget is below 180 minutes adds 5 minutes
    to the budget and re-arms the alarm, and the maps stay as they are; the
    first alarm that finds the budget at 180 minutes or more removes the
    host from the maps and closes its socket. *)
Theorem X13_host_idle_budget s h t (k : nat) :
  isHost (cD s) h = true →
  logoffTimer (timersOf s h) = Some t →
  size (userName (cD s)) ≠ 1%nat →
  (idleTime_m (timersOf s h) + 5 * Z.of_nat k < 185)%Z →
  let idle := idleTime_m (timersOf s h) in
  let s' := run s (replicate k (h, LogoffAlarm)) in
  cD s' = cD s
  ∧ idleTime_m (timersOf s' h) = (idle + 5 * Z.of_nat k)%Z
  ∧ is_Some (logoffTimer (timersOf s' h))
  ∧ ((180 ≤ idle + 5 * Z.of_nat k)%Z →
     cD (step s' (h, LogoffAlarm)) = removeUser h (cD s)
     ∧ log (logoffAlarm h s')
       = [SocketEmit h "chat message"
            (DStr (disconnectNotice (idle + 5 * Z.of_nat k) +:+ advice));
          SocketDisconnect h]).
Proof.
  intros Hh Ht Hn Hi idle s'. subst idle s'.
  assert (Hk : cD (run s (replicate k (h, LogoffAlarm))) = cD s
               ∧ idleTime_m (timersOf (run s (replicate k (h, LogoffAlarm))) h)
                 = (idleTime_m (timersOf s h) + 5 * Z.of_nat k)%Z
               ∧ is_Some (logoffTimer (timersOf (run s (replicate k (h, LogoffAlarm))) h))).
  { revert s t Hh Ht Hn Hi. induction k as [|k IH]; intros s t Hh Ht Hn Hi.
    - cbn. split; [done|]. split; [lia|]. by rewrite Ht.
    - cbn [replicate]. change (run s (_ :: ?evs)) with (run (step s (h, LogoffAlarm)) evs).
      assert (Hs : step s (h, LogoffAlarm)
                   = mkServer (cD s)
                       (<[h := mkTimers (Some 5%Z) None (idleTime_m (timersOf s h) + 5)%Z]>
                          (timers s))).
      { unfold step. cbn [fst snd handle].
        by rewrite (logoffAlarm_extends s h t Hh Ht Hn) by lia. }
      rewrite Hs. set (s1 := mkServer _ _).
      assert (Ht1 : timersOf s1 h = mkTimers (Some 5%Z) None (idleTime_m (timersOf s h) + 5)%Z).
      { unfold timersOf at 1, s1. cbn [timers]. by rewrite lookup_insert_eq. }
      destruct (IH s1 5%Z) as (H1 & H2 & H3).
      + exact Hh.
      + by rewrite Ht1.
      + exact Hn.
      + rewrite Ht1. cbn [idleTime_m]. lia.
      + rewrite H1, H2, Ht1. cbn [idleTime_m]. split; [done|]. split; [lia|done]. }
  destruct Hk as (H1 & H2 & [t' H3]).
  split; [done|]. split; [done|]. split; [by eexists|].
  intros Hcap. unfold step. cbn [fst snd handle].
  rewrite logoffAlarm_run, H3. cbv zeta. rewrite H1, Hh, H2.
  destruct (Z.leb_spec 180 (idleTime_m (timersOf s h) + 5 * Z.of_nat k)) as [_|]; [|lia].
  rewrite orb_true_r. done.
Qed.

Lemma X13_witness :
  idleTime_m (timersOf hostedRoom "h") = 40%Z
  ∧ cD (run hostedRoom (replicate 28 ("h", LogoffAlarm))) = cD hostedRoom
  ∧ cD (run hostedRoom (replicate 29 ("h", LogoffAlarm))) = removeUser "h" (cD hostedRoom).
Proof.
  assert (Hi : idleTime_m (timersOf hostedRoom "h") = 40%Z) by (vm_compute; reflexivity).
  destruct (X13_host_idle_budget hostedRoom "h" 40%Z 28) as (H1 & _ & _ & H4).
  - vm_compute. reflexivity.
  - vm_compute. reflexivity.
  - vm_compute. discriminate.
  - rewrite Hi. vm_compute. reflexivity.
  - split; [exact Hi|]. split; [exact H1|].
    destruct H4 as [H4 _]; [rewrite Hi; vm_compute; discriminate|].
    rewrite <- H4. vm_compute. reflexivity.
Defined.

(** ** Chat messages and the commands of a host *)

Lemma chatMessage_run env sock msg s :
  chatMessage env sock msg s
  = mkRes (Val tt)
      (mkServer (cD s) (<[sock := mkTimers (Some 40%Z) (Some 40%Z) 40%Z]> (timers s)))
      (if loose_eq msg (JStr "dcir") then
         if isHost (cD s) sock
         then dcirNotice (cD s) <$>
                dcirTargets (cD s) (getv (room (cD s)) (JStr sock)) (sockOrder env)
         else [EmitTo (JStr sock) "chat message"
                 (DStr "Requests to disconnect clients must come from the host.")]
       else if loose_eq msg (JStr "dac") then []
       else if loose_eq msg (JStr "rr") then
         if isHost (cD s) sock
         then [EmitTo (gets (hostID (cD s)) (getv (room (cD s)) (JStr sock)))
                 "chat message" (DStr (roomReport env (cD s)))]
         else [EmitTo (JStr sock) "chat message"
                 (DStr "Requests for room reports must come from the host.")]
       else [EmitTo (getv (room (cD s)) (JStr sock)) "chat message"
               (DStr (chatLine (cD s) sock msg))]).
Proof.
  unfold chatMessage, isHost, chatLine. destruct s as [d tm]. msimpl.
  rewrite !setTimer_run. unfold rearm. msimpl.
  destruct (loose_eq msg (JStr "dcir")); msimpl.
  { destruct (loose_eq (JStr sock) _); msimpl; [|done].
    rewrite disconnectClientsInOneRoom_run. msimpl. done. }
  destruct (loose_eq msg (JStr "dac")); msimpl; [done|].
  destruct (loose_eq msg (JStr "rr")); msimpl; [|done].
  destruct (loose_eq (JStr sock) _); msimpl; done.
Qed.

Lemma isHost_gets d sock :
  isHost d sock = true ↔ gets (hostID d) (getv (room d) (JStr sock)) = JStr sock.
Proof.
  unfold isHost. destruct (gets _ _) as [| |h]; cbn [loose_eq].
  - split; discriminate.
  - split; discriminate.
  - rewrite String.eqb_eq. split; congruence.
Qed.




Lemma dcirNotice_inj d c c' : dcirNotice d c = dcirNotice d c' → c = c'.
Proof. unfold dcirNotice. congruence. Qed.

(** X16. The command [dcir] of a host.  The only things sent are requests
    to disconnect, each naming its addressee and the originator [host];
    when the enumeration visits every registered socket once, a socket gets
    a request exactly when it is registered, its room is the room of the
    host, and it is not the host, and it gets it once.  Nothing is removed
    from the maps: the clients are asked, not disconnected. *)
Theorem X16_dcir_asks_the_clients_of_the_room s env sock :
  isHost (cD s) sock = true →
  enumerates (sockOrder env) (userName (cD s)) →
  let r := chatMessage env sock (JStr "dcir") s in
  let R := getv (room (cD s)) (JStr sock) in
  (∀ a, a ∈ log r → ∃ c, a = dcirNotice (cD s) c)
  ∧ (∀ c, dcirNotice (cD s) c ∈ log r
          ↔ is_Some (userName (cD s) !! c)
            ∧ loose_eq (getv (room (cD s)) (JStr c)) R = true
            ∧ c ≠ sock)
  ∧ NoDup (log r)
  ∧ cD (final r) = cD s.
Proof.
  intros Hh [Hnd Henum] r R. subst r R. rewrite chatMessage_run, Hh.
  cbn [log final cD]. msimpl.
  set (R := getv (room (cD s)) (JStr sock)).
  assert (Htarget : ∀ c, c ∈ dcirTargets (cD s) R (sockOrder env)
                         ↔ is_Some (userName (cD s) !! c)
                           ∧ loose_eq (getv (room (cD s)) (JStr c)) R = true
                           ∧ c ≠ sock).
  { intros c. unfold dcirTargets. rewrite list_elem_of_In, filter_In,
      <- list_elem_of_In, Henum, andb_true_iff, negb_true_iff.
    apply isHost_gets in Hh. fold R in Hh. rewrite Hh. cbn [loose_eq].
    rewrite String.eqb_neq. tauto. }
  split; [|split; [|split]].
  - intros a Ha. apply list_elem_of_fmap in Ha as (c & -> & _). by exists c.
  - intros c. rewrite <- Htarget. split.
    + intros Ha. apply list_elem_of_fmap in Ha as (c' & Heq & Hc').
      by apply dcirNotice_inj in Heq as ->.
    + intros Hc. apply list_elem_of_fmap. by exists c.
  - apply NoDup_fmap_2; [intros c c'; apply dcirNotice_inj|].
    unfold dcirTargets. by apply NoDup_ListNoDup, List.NoDup_filter, NoDup_ListNoDup.
  - done.
Qed.

Lemma X16_witness :
  log (chatMessage (mkEnv 2 ["h"; "c"] ["r"]) "h" (JStr "dcir") hostedRoom)
  = [EmitTo (JStr "c") "disconnectByServer" (DDisconnectByServer (JStr "u2") "host")]
  ∧ NoDup (log (chatMessage (mkEnv 2 ["h"; "c"] ["r"]) "h" (JStr "dcir") hostedRoom)).
Proof.
  split; [vm_compute; reflexivity|].
  refine (proj1 (proj2 (proj2
    (X16_dcir_asks_the_clients_of_the_room hostedRoom (mkEnv 2 ["h"; "c"] ["r"]) "h" _ _)))).
  - vm_compute. reflexivity.
  - assert (Hu : userName (cD hostedRoom)
                 = <["c" := JStr "u2"]> (<["h" := JStr "u1"]> (∅ : gmap string jsval)))
      by (vm_compute; reflexivity).
    split; cbn [sockOrder].
    + apply (bool_decide_unpack _). vm_compute. exact I.
    + intros k. rewrite Hu, list_elem_of_In. cbn [In]. split.
      * intros [<-|[<-|[]]]; [rewrite lookup_insert_ne by done|];
          rewrite lookup_insert_eq; eauto.
      * intros Hk.
        destruct (decide (k = "h")) as [->|Hh]; [auto|].
        destruct (decide (k = "c")) as [->|Hc]; [auto|].
        exfalso. revert Hk.
        rewrite lookup_insert_ne, lookup_insert_ne, lookup_empty by done.
        by intros [? ?].
Defined.

(** X17. A chat message that is not a command goes to the room of the
    sender, signed with the display name of the sender.  The listener
    [chat message but not me] sends the same line to the same room without
    the sender, knows no commands, and leaves the timers alone. *)
Theorem X17_chat_line_to_the_room s env sock msg :
  let R := getv (room (cD s)) (JStr sock) in
  let line := DStr (ToString msg +:+ " (" +:+
                    ToString (setDisplayName (cD s) sock "comma") +:+ ")") in
  chatMessageButNotMe sock msg s
  = mkXRes (Val tt) s [SocketTo sock R "chat message" line]
  ∧ (msg ≠ JStr "dcir" → msg ≠ JStr "dac" → msg ≠ JStr "rr" →
     log (chatMessage env sock msg s) = [EmitTo R "chat message" line]).
Proof.
  intros R line. subst R line. split.
  - unfold chatMessageButNotMe. destruct s as [d tm]. xmsimpl. done.
  - intros H1 H2 H3. rewrite chatMessage_run. cbn [log]. unfold chatLine.
    destruct (loose_eq msg (JStr "dcir")) eqn:E1; [by apply loose_eq_str in E1|].
    destruct (loose_eq msg (JStr "dac")) eqn:E2; [by apply loose_eq_str in E2|].
    destruct (loose_eq msg (JStr "rr")) eqn:E3; [by apply loose_eq_str in E3|].
    done.
Qed.

Lemma X17_witness :
  log (chatMessage (mkEnv 2 ["h"; "c"] ["r"]) "c" (JStr "hello") hostedRoom)
  = [EmitTo (JStr "r") "chat message" (DStr "hello (Al.red, u2)")].
Proof.
  rewrite (proj2 (X17_chat_line_to_the_room hostedRoom (mkEnv 2 ["h"; "c"] ["r"])
                    "c" (JStr "hello"))) by discriminate.
  vm_compute. reflexivity.
Defined.

(** ** Leaving on request *)


(** X19. A host evicts a client.  With the registry consistent, the request
    [clientDisconnectByHost] that names a registered client is passed on to
    the socket of that client and changes nothing; when the client answers
    with [okDisconnectMe] and its name, the host of the room of the client is
    told twice, the client is removed from the name maps and its socket is
    closed.  [shutDown-p2p-deleteClient] with that name reaches the same
    host. *)
Theorem X19_eviction_by_host s h c name :
  registryInv (cD s) →
  userName (cD s) !! c = Some (JStr name) →
  let host := gets (hostID (cD s)) (getv (room (cD s)) (JStr c)) in
  let r1 := clientDisconnectByHost h (JStr name) s in
  let r2 := okDisconnectMe c (JStr name) (final r1) in
  r1 = mkRes (Val tt) s
         [EmitTo (JStr c) "disconnectByServer" (DDisconnectByServer (JStr name) "host")]
  ∧ log r2 = [EmitTo host "chat message" (DStr (name +:+ " has disconnected"));
              EmitTo host "client-disconnected" (DVal (JStr name));
              SocketDisconnect c]
  ∧ userName (cD (final r2)) !! c = None
  ∧ ids (cD (final r2)) !! name = None
  ∧ shutDownP2P h (JStr name) s
    = mkRes (Val tt) s [EmitTo host "shutDown-p2p-deleteClient" (DVal (JStr name))].
Proof.
  intros [_ Hinv] Hc host r1 r2.
  assert (Hid : gets (ids (cD s)) (JStr name) = JStr c).
  { unfold gets. cbn [ToString]. apply Hinv in Hc. by rewrite Hc. }
  assert (H1 : r1 = mkRes (Val tt) s
                 [EmitTo (JStr c) "disconnectByServer"
                    (DDisconnectByServer (JStr name) "host")]).
  { subst r1. unfold clientDisconnectByHost. destruct s as [d tm]. msimpl.
    cbn [cD] in Hid. by rewrite Hid. }
  subst r2. rewrite H1. cbn [final]. rewrite okDisconnectMe_run. cbn [log final cD].
  rewrite Hid. split; [done|]. split; [done|]. split; [apply lookup_delete_eq|]. split.
  - unfold removeUser. cbn [ids]. unfold getv at 1. cbn [ToString]. rewrite Hc.
    cbn [default from_option id ToString]. apply lookup_delete_eq.
  - unfold shutDownP2P. subst host. destruct s as [d tm]. msimpl.
    cbn [cD] in Hid. by rewrite Hid.
Qed.

Lemma X19_witness :
  log (clientDisconnectByHost "h" (JStr "u2") hostedRoom)
  = [EmitTo (JStr "c") "disconnectByServer" (DDisconnectByServer (JStr "u2") "host")]
  ∧ ids (cD (final (okDisconnectMe "c" (JStr "u2")
                      (final (clientDisconnectByHost "h" (JStr "u2") hostedRoom)))))
      !! "u2" = None.
Proof.
  assert (Hc : userName (cD hostedRoom) !! "c" = Some (JStr "u2"))
    by (vm_compute; reflexivity).
  pose proof (X19_eviction_by_host hostedRoom "h" "c" "u2" hostedRoom_registryInv Hc) as H.
  cbv zeta in H. destruct H as (H1 & _ & _ & H4 & _).
  split; [exact (f_equal log H1) | exact H4].
Defined.

(** ** Control messages *)

Lemma controlMessage_run socks sock m data s :
  ctl_data m = Some data →
  let data' :=
    if truthy (displayThis data)
    then mkCtlData (JStr (chatLine (cD s) sock (displayThis data))) (data_body data)
    else data in
  let msg' := mkCtl (ctl_to m) (Some data') (ctl_body m) in
  controlMessage socks sock (Some m) s
  = mkXRes (Val tt) s
      [if loose_eq (ctl_to m) (JStr "host") then
         EmitControl (gets (hostID (cD s)) (getv (room (cD s)) (JStr sock))) msg'
       else if loose_eq (ctl_to m) (JStr "room") then
         EmitControl (getv (room (cD s)) (JStr sock)) msg'
       else if loose_eq (ctl_to m) (JStr "roomNoSender") then
         SocketToControl sock (getv (room (cD s)) (JStr sock)) msg'
       else
         EmitControl
           (if truthy (findNick (cD s) (ctl_to m) socks)
            then findNick (cD s) (ctl_to m) socks
            else gets (ids (cD s)) (ctl_to m)) msg'].
Proof.
  intros Hdata data' msg'. subst data' msg'. unfold controlMessage, chatLine.
  rewrite Hdata. destruct s as [d tm]. xmsimpl.
  destruct (loose_eq (ctl_to m) (JStr "host")); xmsimpl; [done|].
  destruct (loose_eq (ctl_to m) (JStr "room")); xmsimpl; [done|].
  destruct (loose_eq (ctl_to m) (JStr "roomNoSender")); xmsimpl; done.
Qed.

Lemma findNick_snoc d to socks c :
  findNick d to (socks ++ [c])
  = if hasNick d to c then JStr c else findNick d to socks.
Proof. unfold findNick. by rewrite foldl_app. Qed.

Lemma findNick_last d to socks :
  findNick d to socks
  = from_option JStr JNull (last (List.filter (hasNick d to) socks)).
Proof.
  induction socks as [|c socks IH] using rev_ind; [done|].
  rewrite findNick_snoc, List.filter_app. cbn [List.filter].
  destruct (hasNick d to c).
  - by rewrite last_snoc.
  - by rewrite app_nil_r.
Qed.

(** X20. The loop of the control message listener that looks for a
    nickname: it finds nothing ([null]) when no socket of the enumeration
    has the addressee as its nickname, and otherwise the last such socket
    of the enumeration; an earlier one is overwritten. *)
Theorem X20_findNick_last_match d to socks :
  (List.filter (hasNick d to) socks = [] → findNick d to socks = JNull)
  ∧ (∀ before c after,
       socks = (before ++ c :: after)%list →
       hasNick d to c = true →
       Forall (λ c', hasNick d to c' = false) after →
       findNick d to socks = JStr c).
Proof.
  split.
  - intros H. by rewrite findNick_last, H.
  - intros before c after -> Hc Hafter. rewrite findNick_last, List.filter_app.
    cbn [List.filter]. rewrite Hc.
    assert (List.filter (hasNick d to) after = []) as ->.
    { induction Hafter as [|c' after Hc' _ IH]; [done|].
      cbn [List.filter]. by rewrite Hc'. }
    by rewrite last_snoc.
Qed.

Lemma X20_witness :
  findNick (cD hostedRoom) (JStr "Al") ["h"; "c"] = JStr "c".
Proof.
  apply (proj2 (X20_findNick_last_match (cD hostedRoom) (JStr "Al") ["h"; "c"])
           ["h"] "c" []).
  - reflexivity.
  - vm_compute. reflexivity.
  - constructor.
Defined.

(** X21. What a control message carries.  A message that is [null] or
    [undefined], or whose [data] is, stops the listener with a TypeError and
    nothing is sent.  Otherwise exactly one message is sent, with the
    addressee field and the rest of the payload as received; its
    [displayThis] text, when it has one, is signed like a chat line, and is
    left as it is when it is empty or missing. *)
Theorem X21_control_message_payload s socks sock :
  controlMessage socks sock None s = mkXRes TypeError s []
  ∧ ∀ m,
      match ctl_data m with
      | None => controlMessage socks sock (Some m) s = mkXRes TypeError s []
      | Some data =>
          ∃ a target m' data',
            controlMessage socks sock (Some m) s = mkXRes (Val tt) s [a]
            ∧ relayedControl a = Some (target, m')
            ∧ ctl_to m' = ctl_to m
            ∧ ctl_body m' = ctl_body m
            ∧ ctl_data m' = Some data'
            ∧ data_body data' = data_body data
            ∧ displayThis data'
              = (if truthy (displayThis data)
                 then JStr (ToString (displayThis data) +:+ " (" +:+
                            ToString (setDisplayName (cD s) sock "comma") +:+ ")")
                 else displayThis data)
      end.
Proof.
  split; [done|]. intros m. destruct (ctl_data m) as [data|] eqn:Hdata.
  - rewrite (controlMessage_run socks sock m data s Hdata). cbv zeta.
    unfold chatLine.
    destruct (loose_eq (ctl_to m) (JStr "host"));
      [|destruct (loose_eq (ctl_to m) (JStr "room"));
        [|destruct (loose_eq (ctl_to m) (JStr "roomNoSender"))]];
      (eexists _, _, _, _; split; [reflexivity|]; split; [reflexivity|];
       cbn [ctl_to ctl_body ctl_data]; repeat split;
       by destruct (truthy (displayThis data))).
  - unfold controlMessage. by rewrite Hdata.
Qed.

(** X22. Where a control message goes.  The addressees [host] and [room]
    are the host of the room of the sender and that room; [roomNoSender] is
    the room without the sender, the only case that leaves the sender out.
    Any other addressee is a user: the last socket of the enumeration that
    has it as nickname, and only when there is none the socket registered
    under it as user name. *)
Theorem X22_control_message_addressing s socks sock m data :
  ctl_data m = Some data →
  ∃ a target m',
    xlog (controlMessage socks sock (Some m) s) = [a]
    ∧ relayedControl a = Some (target, m')
    ∧ (ctl_to m = JStr "host" →
       target = gets (hostID (cD s)) (getv (room (cD s)) (JStr sock))
       ∧ exceptSender a = false)
    ∧ (ctl_to m = JStr "room" →
       target = getv (room (cD s)) (JStr sock) ∧ exceptSender a = false)
    ∧ (ctl_to m = JStr "roomNoSender" →
       target = getv (room (cD s)) (JStr sock) ∧ exceptSender a = true)
    ∧ (ctl_to m ≠ JStr "host" → ctl_to m ≠ JStr "room" →
       ctl_to m ≠ JStr "roomNoSender" →
       exceptSender a = false
       ∧ (∀ c, last (List.filter (hasNick (cD s) (ctl_to m)) socks) = Some c →
               c ≠ "" → target = JStr c)
       ∧ (List.filter (hasNick (cD s) (ctl_to m)) socks = [] →
          target = gets (ids (cD s)) (ctl_to m))).
Proof.
  intros Hdata. rewrite (controlMessage_run socks sock m data s Hdata). cbv zeta.
  cbn [xlog].
  destruct (loose_eq (ctl_to m) (JStr "host")) eqn:E1;
    [|destruct (loose_eq (ctl_to m) (JStr "room")) eqn:E2;
      [|destruct (loose_eq (ctl_to m) (JStr "roomNoSender")) eqn:E3]];
    (eexists _, _, _; split; [reflexivity|]; split; [reflexivity|]);
    cbn [exceptSender];
    try apply loose_eq_str in E1; try apply loose_eq_str in E2;
    try apply loose_eq_str in E3.
  - rewrite E1. repeat split; intros; try done.
  - rewrite E2. repeat split; intros; try done.
  - rewrite E3. repeat split; intros; try done.
  - assert (H1 : ctl_to m ≠ JStr "host")
      by (intros H; apply loose_eq_str in H; congruence).
    assert (H2 : ctl_to m ≠ JStr "room")
      by (intros H; apply loose_eq_str in H; congruence).
    assert (H3 : ctl_to m ≠ JStr "roomNoSender")
      by (intros H; apply loose_eq_str in H; congruence).
    split; [done|]. split; [done|]. split; [done|]. intros _ _ _.
    split; [done|]. rewrite findNick_last. split.
    + intros c -> Hc. cbn [from_option]. by rewrite truthy_JStr.
    + intros ->. done.
Qed.

Lemma X22_witness :
  ∃ a target m',
    xlog (controlMessage ["h"; "c"] "h"
            (Some (mkCtl (JStr "Al") (Some (mkCtlData (JStr "hi") "")) "")) hostedRoom)
    = [a]
    ∧ relayedControl a = Some (target, m')
    ∧ target = JStr "c".
Proof.
  destruct (X22_control_message_addressing hostedRoom ["h"; "c"] "h"
              (mkCtl (JStr "Al") (Some (mkCtlData (JStr "hi") "")) "")
              (mkCtlData (JStr "hi") "") eq_refl)
    as (a & target & m' & Hlog & Hrel & _ & _ & _ & Huser).
  exists a, target, m'. split; [exact Hlog|]. split; [exact Hrel|].
  destruct Huser as (_ & Hnick & _); try discriminate.
  apply Hnick; [vm_compute; reflexivity | discriminate].
Defined.

(** ** Relays inside a room *)

(** X23. The echo test through the host.  A client that asks for an echo
    through the [host] has its socket id sent to the host of its room; when
    the host returns that id, the answer [host] goes to the socket of the
    client.  An echo from the [server] is answered to the sender directly,
    and any other request is not answered. *)
Theorem X23_echo_round_trip s c h r :
  room (cD s) !! c = Some (JStr r) →
  hostID (cD s) !! r = Some h →
  echoFromClient c (JStr "host") s
  = mkRes (Val tt) s [EmitTo (JStr h) "echo-from-Server-to-Host" (DStr c)]
  ∧ echoFromHost h (JStr c) s
    = mkRes (Val tt) s [EmitTo (JStr c) "echo-from-Server-to-Client" (DStr "host")]
  ∧ echoFromClient c (JStr "server") s
    = mkRes (Val tt) s [EmitTo (JStr c) "echo-from-Server-to-Client" (DStr "server")]
  ∧ (∀ msg, msg ≠ JStr "server" → msg ≠ JStr "host" →
            echoFromClient c msg s = mkRes (Val tt) s []).
Proof.
  intros Hroom Hhost. unfold echoFromClient, echoFromHost. destruct s as [d tm].
  cbn [cD] in Hroom, Hhost. msimpl.
  unfold gets, getv. cbn [ToString]. rewrite Hroom. cbn [default from_option id ToString].
  rewrite Hhost. cbn [from_option].
  split; [done|]. split; [done|]. split; [done|].
  intros msg H1 H2.
  destruct (loose_eq msg (JStr "server")) eqn:E1; [by apply loose_eq_str in E1|].
  destruct (loose_eq msg (JStr "host")) eqn:E2; [by apply loose_eq_str in E2|].
  done.
Qed.

Lemma X23_witness :
  echoFromClient "c" (JStr "host") hostedRoom
  = mkRes (Val tt) hostedRoom [EmitTo (JStr "h") "echo-from-Server-to-Host" (DStr "c")].
Proof.
  refine (proj1 (X23_echo_round_trip hostedRoom "c" "h" "r" _ _));
    vm_compute; reflexivity.
Defined.

(** X24. What a member of a hosted room sends to its host and what the host
    sends to the room.  The mouse and keyboard events of a client, and its
    signaling messages addressed to [host], go to the host of its room; the
    commands of a socket go to the room of that socket.  A signaling message
    addressed to anything else goes to the socket registered under that
    name; one that is [null] or [undefined] stops the listener with a
    TypeError. *)
Theorem X24_relays_in_a_hosted_room s c h r :
  room (cD s) !! c = Some (JStr r) →
  hostID (cD s) !! r = Some h →
  (∀ w, clientMKEvent c w s
        = mkRes (Val tt) s [EmitTo (JStr h) "client-mK-StH-event" (DWire w)])
  ∧ (∀ w, commandFromHost c w s
          = mkRes (Val tt) s [EmitTo (JStr r) "command-from-host-to-all-clients" (DWire w)])
  ∧ (∀ m, sig_to m = JStr "host" →
          signalingMessage c (Some m) s
          = mkRes (Val tt) s [EmitTo (JStr h) "signaling message" (DSignal m)])
  ∧ (∀ m name other,
       sig_to m = JStr name → name ≠ "host" →
       registryInv (cD s) → userName (cD s) !! other = Some (JStr name) →
       signalingMessage c (Some m) s
       = mkRes (Val tt) s [EmitTo (JStr other) "signaling message" (DSignal m)])
  ∧ signalingMessage c None s = mkRes TypeError s [].
Proof.
  intros Hroom Hhost.
  assert (Hh : gets (hostID (cD s)) (getv (room (cD s)) (JStr c)) = JStr h).
  { unfold gets, getv. cbn [ToString]. rewrite Hroom. cbn [default from_option id ToString].
    by rewrite Hhost. }
  assert (Hr : getv (room (cD s)) (JStr c) = JStr r).
  { unfold getv. cbn [ToString]. by rewrite Hroom. }
  unfold clientMKEvent, commandFromHost, signalingMessage. destruct s as [d tm].
  cbn [cD] in *. msimpl. rewrite Hh, Hr.
  split; [done|]. split; [done|]. split; [|split; [|done]].
  - intros m ->. msimpl. done.
  - intros m name other -> Hname [_ Hinv] Hother. cbn [loose_eq].
    destruct (String.eqb_spec name "host") as [|_]; [done|].
    unfold gets. cbn [ToString]. apply Hinv in Hother. by rewrite Hother.
Qed.

Lemma X24_witness :
  clientMKEvent "c" "keys" hostedRoom
  = mkRes (Val tt) hostedRoom [EmitTo (JStr "h") "client-mK-StH-event" (DWire "keys")].
Proof.
  refine (proj1 (X24_relays_in_a_hosted_room hostedRoom "c" "h" "r" _ _) "keys");
    vm_compute; reflexivity.
Defined.

(** ** Counting names *)

Lemma countValidNames_step (name : jsval) :
  truthy name && strict_ne name (JStr "") && strict_ne name JNull
    && strict_ne name JUndefined
  = truthy name.
Proof.
  destruct name as [| |n]; [done|done|]. cbn [truthy].
  destruct (String.eqb_spec n "") as [->|Hn]; [done|].
  unfold strict_ne. rewrite !bool_decide_eq_false_2; [done| | |]; congruence.
Qed.

Lemma countValidNames_insert (m : gmap string jsval) k v :
  m !! k = None →
  countValidNames (<[k := v]> m)
  = ((if truthy v then 1 else 0) + countValidNames m)%nat.
Proof.
  intros Hk. unfold countValidNames.
  erewrite (foldr_permutation (=) _ _ (map_to_list (<[k := v]> m)));
    [|clear; intros j1 [k1 v1] j2 [k2 v2] b _ _ _; cbn [snd];
      rewrite !countValidNames_step; by destruct (truthy v1), (truthy v2)
     |exact (map_to_list_insert m k v Hk)].
  cbn [foldr snd]. rewrite countValidNames_step. by destruct (truthy v).
Qed.

(** X25. [countValidNames] counts the entries whose value is truthy: the
    three strict comparisons after the truthiness test exclude nothing
    more.  So the [null] placeholders of the nickname and team maps are not
    counted, the count is at most the number of entries, and a new entry
    adds one exactly when its value is truthy. *)
Theorem X25_countValidNames_counts_truthy (m : gmap string jsval) :
  countValidNames m
  = size (filter (λ kv : string * jsval, truthy kv.2 = true) m)
  ∧ (countValidNames m ≤ size m)%nat
  ∧ (∀ k v, m !! k = None →
            countValidNames (<[k := v]> m)
            = ((if truthy v then 1 else 0) + countValidNames m)%nat).
Proof.
  split; [|split; [|apply countValidNames_insert]].
  - induction m as [|k v m Hk IH] using map_ind.
    + by rewrite map_filter_empty, map_size_empty.
    + rewrite countValidNames_insert, IH by done.
      destruct (truthy v) eqn:Hv.
      * rewrite map_filter_insert_True by done.
        rewrite map_size_insert_None; [done|].
        apply map_lookup_filter_None. by left.
      * rewrite map_filter_insert_not'; [done| |].
        -- cbn [snd]. by rewrite Hv.
        -- intros y. by rewrite Hk.
  - induction m as [|k v m Hk IH] using map_ind.
    + by rewrite map_size_empty.
    + rewrite countValidNames_insert, map_size_insert_None by done.
      destruct (truthy v); lia.
Qed.

(** ** Every registered socket has its nickname and team entries *)



(** ** The revision of 2021: no placeholders *)





(** ** The room report *)

Lemma append_cons a (s t : string) : String a s +:+ t = String a (s +:+ t).
Proof. reflexivity. Qed.

Lemma append_assoc (s t u : string) : (s +:+ t) +:+ u = s +:+ t +:+ u.
Proof.
  induction s as [|a s IH]; [done|]. by rewrite !append_cons, IH.
Qed.

Lemma length_append (s t : string) :
  String.length (s +:+ t) = (String.length s + String.length t)%nat.
Proof.
  induction s as [|a s IH]; [done|]. rewrite append_cons. cbn [String.length].
  by rewrite IH.
Qed.

Lemma sliceOff2_append (s t : string) :
  (2 ≤ String.length t)%nat → sliceOff2 (s +:+ t) = s +:+ sliceOff2 t.
Proof.
  intros Ht. unfold sliceOff2. induction s as [|a s IH]; [done|].
  rewrite !append_cons. cbn [String.length].
  pose proof (length_append s t) as Hlen.
  replace (S (String.length (s +:+ t)) - 2)%nat
    with (S (String.length (s +:+ t) - 2)) by lia.
  cbn [String.substring]. by rewrite IH.
Qed.

Lemma sliceOff2_comma (s : string) : sliceOff2 (s +:+ ", ") = s.
Proof. rewrite sliceOff2_append by (cbn; lia). apply append_nil_r. Qed.

Lemma foldl_append {A} (f : A → string) (l : list A) (init : string) :
  foldl (λ acc x, acc +:+ f x) init l
  = init +:+ foldr (λ x acc, f x +:+ acc) "" l.
Proof.
  revert init. induction l as [|x l IH]; intros init.
  - by rewrite append_nil_r.
  - cbn [foldl foldr]. by rewrite IH, append_assoc.
Qed.

Lemma roomReportEntry_cases d r socket_id :
  (loose_eq (getv (room d) (JStr socket_id)) (JStr r) = false
   ∧ roomReportEntry d r socket_id = "")
  ∨ (loose_eq (getv (room d) (JStr socket_id)) (JStr r) = true
     ∧ ∃ t, roomReportEntry d r socket_id = t +:+ ", ").
Proof.
  unfold roomReportEntry. cbv zeta.
  destruct (loose_eq (getv (room d) (JStr socket_id)) (JStr r)); [right|by left].
  split; [done|].
  set (user := ToString (getv (userName d) (JStr socket_id))).
  set (nick := ToString (getv (nickName d) (JStr socket_id))).
  set (team := if truthy (getv (teamName d) (JStr socket_id)) then _ else _).
  destruct (loose_eq _ _), (truthy (getv (nickName d) (JStr socket_id))).
  - exists (user +:+ "(h-" +:+ nick +:+ team +:+ ")"). by rewrite !append_assoc.
  - exists (user +:+ "(h)"). by rewrite !append_assoc.
  - exists (user +:+ "(" +:+ nick +:+ team +:+ ")"). by rewrite !append_assoc.
  - by exists user.
Qed.

Lemma roomEntries_cases d socks r :
  (Forall (λ socket_id, loose_eq (getv (room d) (JStr socket_id)) (JStr r) = false) socks
   ∧ roomEntries d socks r = "")
  ∨ (Exists (λ socket_id, loose_eq (getv (room d) (JStr socket_id)) (JStr r) = true) socks
     ∧ ∃ t, roomEntries d socks r = t +:+ ", ").
Proof.
  induction socks as [|c socks IH]; [by left|].
  cbn [roomEntries foldr]. fold (roomEntries d socks r).
  destruct (roomReportEntry_cases d r c) as [[Hc ->]|[Hc [t ->]]];
    destruct IH as [[Hall ->]|[Hex [t' ->]]].
  - left. split; [by constructor|done].
  - right. split; [by apply Exists_cons_tl|]. by exists t'.
  - right. split; [by apply Exists_cons_hd|]. exists t. by rewrite append_nil_r.
  - right. split; [by apply Exists_cons_hd|]. exists ((t +:+ ", ") +:+ t').
    by rewrite (append_assoc (t +:+ ", ")).
Qed.

(** X28. The room report is the connection summary followed by one line
    for each room of the enumeration: the [slice(0, -2)] after a room never
    cuts into what came before.  The line of a room with members lists
    their entries without the last separator; for a room that none of the
    enumerated sockets is in (a host slot left behind), the slice takes the
    [= ] of the heading instead.  The report that a host asks for with [rr]
    is sent to that host. *)
Theorem X28_room_report_lines env d :
  roomReport env d
  = connectionInfo env d +:+
    foldr (λ r acc, roomLine d (sockOrder env) r +:+ acc) "" (roomOrder env)
  ∧ (∀ r,
       (Forall (λ socket_id, loose_eq (getv (room d) (JStr socket_id)) (JStr r) = false)
               (sockOrder env) →
        roomLine d (sockOrder env) r = "<br>clients in " +:+ r +:+ " ")
       ∧ (Exists (λ socket_id, loose_eq (getv (room d) (JStr socket_id)) (JStr r) = true)
                 (sockOrder env) →
          ∃ t, roomEntries d (sockOrder env) r = t +:+ ", "
               ∧ roomLine d (sockOrder env) r = "<br>clients in " +:+ r +:+ " = " +:+ t))
  ∧ (∀ s sock, cD s = d → isHost d sock = true →
       log (chatMessage env sock (JStr "rr") s)
       = [EmitTo (JStr sock) "chat message" (DStr (roomReport env d))]).
Proof.
  split; [|split].
  - unfold roomReport. generalize (connectionInfo env d) as init.
    induction (roomOrder env) as [|r rooms IH]; intros init.
    + by rewrite append_nil_r.
    + cbn [foldl foldr]. rewrite IH. rewrite foldl_append.
      fold (roomEntries d (sockOrder env) r).
      rewrite <- (append_assoc init). rewrite <- (append_assoc (init +:+ _)).
      rewrite (append_assoc ((init +:+ "<br>clients in ") +:+ r)).
      rewrite sliceOff2_append by (rewrite length_append; cbn; lia).
      unfold roomLine. by rewrite !append_assoc.
  - intros r. unfold roomLine.
    destruct (roomEntries_cases d (sockOrder env) r) as [[Hall ->]|[Hex [t Ht]]]; split.
    + done.
    + intros Hex. exfalso. apply Exists_exists in Hex as (c & Hc & Hin).
      rewrite Forall_forall in Hall. by rewrite (Hall c Hc) in Hin.
    + intros Hall. exfalso. apply Exists_exists in Hex as (c & Hc & Hin).
      rewrite Forall_forall in Hall. by rewrite (Hall c Hc) in Hin.
    + intros _. exists t. split; [done|]. rewrite Ht.
      rewrite <- (append_assoc " = "). by rewrite sliceOff2_comma.
  - intros s sock <- Hh. rewrite chatMessage_run. cbn [log]. msimpl. rewrite Hh.
    apply isHost_gets in Hh. by rewrite Hh.
Qed.

(** ** The name report *)

Lemma nameReportStep_count d nm nn tn target acc c :
  teamCount (nameReportStep d nm nn tn target acc c)
  = if truthy (names_teamName nm)
       && loose_eq (getv (teamName d) (JStr c)) (names_teamName nm)
    then S (teamCount acc) else teamCount acc.
Proof.
  unfold nameReportStep. cbv zeta.
  repeat match goal with
         | |- context [if ?b then _ else _] => destruct b; cbn [teamCount]
         end; done.
Qed.

Lemma nameReport_count d nm nn tn target socks acc :
  teamCount (foldl (nameReportStep d nm nn tn target) acc socks)
  = (teamCount acc
     + if truthy (names_teamName nm)
       then length (teamMembers d (names_teamName nm) socks) else 0)%nat.
Proof.
  revert acc. induction socks as [|c socks IH]; intros acc.
  - cbn. destruct (truthy _); lia.
  - cbn [foldl]. rewrite IH, nameReportStep_count. unfold teamMembers.
    cbn [List.filter].
    destruct (names_teamName nm) as [| |t] eqn:Ht; cbn [truthy andb]; [lia|lia|].
    destruct (negb (String.eqb t "")) eqn:Hne; cbn [andb]; [|lia].
    assert (loose_eq (getv (teamName d) (JStr c)) (JStr t)
            = bool_decide (teamName d !! c = Some (JStr t))) as ->.
    { unfold getv. cbn [ToString].
      destruct (teamName d !! c) as [[| |t']|]; cbn [default from_option id loose_eq];
        try (by rewrite bool_decide_eq_false_2).
      destruct (String.eqb_spec t' t) as [->|Hne'].
      - by rewrite bool_decide_eq_true_2.
      - rewrite bool_decide_eq_false_2; [done|]. congruence. }
    destruct (bool_decide _); cbn [length]; lia.
Qed.

(** X29. The name report.  A request without [names], or whose
    [names.nickName] is not a string, stops the listener with a TypeError
    and nothing is sent.  Otherwise one report is sent, to the socket that
    asked, and the maps are as before; its [teamMemberCount] is the number
    of enumerated sockets whose team entry is the team of the request, and
    0 when the request names no team. *)
Theorem X29_name_report s socks sock :
  nameReportListener socks sock None s = mkXRes TypeError s []
  ∧ (∀ nm, (∀ n, names_nickName nm ≠ JStr n) →
           nameReportListener socks sock (Some nm) s = mkXRes TypeError s [])
  ∧ (∀ nm n, names_nickName nm = JStr n →
       ∃ report,
         nameReportListener socks sock (Some nm) s
         = mkXRes (Val tt) s [EmitNameReport (JStr sock) report]
         ∧ teamMemberCount report
           = (if truthy (names_teamName nm)
              then length (teamMembers (cD s) (names_teamName nm) socks) else 0)
         ∧ (teamMemberCount report ≤ length socks)%nat).
Proof.
  destruct s as [d tm]. split; [done|]. split.
  - intros nm Hn. unfold nameReportListener, nameReport.
    destruct (names_nickName nm) as [| |n]; xmsimpl; try done. by destruct (Hn n).
  - intros nm n Hn. unfold nameReportListener, nameReport. rewrite Hn. xmsimpl.
    eexists. split; [reflexivity|]. cbn [teamMemberCount].
    rewrite nameReport_count. cbn [teamCount plus]. split; [done|].
    destruct (truthy _); [|lia]. unfold teamMembers.
    apply List.filter_length_le.
Qed.

Lemma allDigits_app s t : allDigits (s +:+ t) = allDigits s && allDigits t.
Proof.
  induction s as [|a s IH]; [done|]. rewrite append_cons. cbn [allDigits].
  by rewrite IH, andb_assoc.
Qed.

Lemma stripTrailingDigits_digits s : allDigits s = true → stripTrailingDigits s = "".
Proof. destruct s as [|a s]; [done|]. cbn [stripTrailingDigits]. by intros ->. Qed.

Lemma stripTrailingDigits_app s t :
  allDigits t = true → stripTrailingDigits (s +:+ t) = stripTrailingDigits s.
Proof.
  intros Ht. induction s as [|a s IH]; [by apply stripTrailingDigits_digits|].
  rewrite append_cons. cbn [stripTrailingDigits allDigits].
  by rewrite allDigits_app, Ht, andb_true_r, IH.
Qed.

Lemma prefix_stripTrailingDigits s t :
  String.prefix (stripTrailingDigits s) (s +:+ t) = true.
Proof.
  induction s as [|a s IH]; [by destruct t|].
  rewrite append_cons. cbn [stripTrailingDigits].
  destruct (allDigits (String a s)); [done|].
  cbn [String.prefix]. by destruct (Ascii.ascii_dec a a).
Qed.

Lemma isDigit_pretty_N_char x : isDigit (pretty_N_char x) = true.
Proof. unfold pretty_N_char. by repeat case_match. Qed.

Lemma allDigits_pretty_N_go x s : allDigits s = true → allDigits (pretty_N_go x s) = true.
Proof.
  revert s. induction (N.lt_wf_0 x) as [x _ IH]; intros s Hs.
  destruct (decide (x = 0)%N) as [->|Hx].
  - by rewrite pretty_N_go_0.
  - rewrite pretty_N_go_step by lia. apply IH; [apply N.div_lt; lia|].
    cbn [allDigits]. by rewrite isDigit_pretty_N_char.
Qed.

Lemma allDigits_pretty_N (n : N) : allDigits (pretty n) = true.
Proof.
  unfold pretty, pretty_N. case_decide as Hn; [done|].
  by apply allDigits_pretty_N_go.
Qed.

(** X30. The nickname that the connection handler stores when the one
    asked for is taken, the nickname followed by the digits of the user
    name, loses those digits again in the name report: it has the same
    stem as the nickname asked for, so each of the two passes the
    [startsWith] test of the report asked for under the other. *)
Theorem X30_suffixed_nickname_has_the_stem nick n nicks :
  nick ≠ "" →
  nameInUse (JStr nick) nicks = true →
  ∃ stored,
    storedNick (JStr nick) (uname n) nicks = JStr stored
    ∧ stripTrailingDigits stored = stripTrailingDigits nick
    ∧ startsWith nick (JStr (stripTrailingDigits stored)) = true
    ∧ startsWith stored (JStr (stripTrailingDigits nick)) = true.
Proof.
  intros Hnick Huse. exists (nick +:+ pretty n).
  unfold storedNick. cbn [setDefault]. rewrite truthy_JStr, Huse by done.
  cbn [andb ToString]. rewrite slice1_uname.
  rewrite stripTrailingDigits_app by apply allDigits_pretty_N.
  unfold startsWith. cbn [ToString].
  split; [done|]. split; [done|]. split.
  - rewrite <- (append_nil_r nick) at 2. apply prefix_stripTrailingDigits.
  - apply prefix_stripTrailingDigits.
Qed.

Lemma X30_witness :
  ∃ stored,
    storedNick (JStr "Al") (uname 3) (nickName (cD hostedRoom)) = JStr stored
    ∧ stripTrailingDigits stored = stripTrailingDigits "Al".
Proof.
  destruct (X30_suffixed_nickname_has_the_stem "Al" 3 (nickName (cD hostedRoom)))
    as (stored & H1 & H2 & _); [discriminate | vm_compute; reflexivity |].
  exists stored. split; [exact H1 | exact H2].
Defined.
